(** * A shallow embedding of the turkey-items-v2 server core

    The catalog ([server/src/routes/classes.js]), the session cart and the
    order ledger (the [cart] and [orders] routers of the server) and the
    SQLite schema of [server/src/db.js].

    Modelling choices:
    - the SQLite database is a record of tables (lists of rows), each SQL
      statement the routes issue is a function on it, and each route is a
      function [Database -> Database * response];
    - prices and weights (SQLite [REAL]) are integers (amounts in the
      smallest unit); the claims are about which rows contribute, not about
      rounding;
    - the JSON payloads are a small [json] type; the [items] TEXT column of
      [orders] holds [JSON.stringify(items)], modelled by the value it encodes;
    - storage failures (the [err] arguments of the sqlite callbacks) are not
      modelled: every statement that violates no constraint succeeds. *)

From Stdlib Require Import List ZArith String Ascii Bool Lia.
Import ListNotations.
Open Scope string_scope.
Open Scope Z_scope.

(** ** JavaScript values that the routes inspect *)

#[local] Set Warnings "-register-all".
Inductive json : Type :=
| JNull
| JBool (b : bool)
| JNum (z : Z)
| JStr (s : string)
| JArr (l : list json)
| JObj (l : list (string * json)).

(** JavaScript truthiness of an optional string ([undefined], [null] and
    [''] are falsy). *)
Definition truthy_str (s : option string) : bool :=
  match s with
  | None => false
  | Some v => negb (String.eqb v "")
  end.

(** [a || b] on optional strings. *)
Definition or_js (a b : option string) : option string :=
  if truthy_str a then a else b.

Definition opt_str_eqb (a b : option string) : bool :=
  match a, b with
  | None, None => true
  | Some x, Some y => String.eqb x y
  | _, _ => false
  end.

(** A request body or a spreadsheet row: field name to string value. A
    field absent from the list is [undefined]. *)
Definition body := list (string * string).

Definition field (k : string) (b : body) : option string :=
  match find (fun kv => String.eqb (fst kv) k) b with
  | Some kv => Some (snd kv)
  | None => None
  end.

(** ** Rows of the SQLite tables of [db.js] *)

Module ClassRow.
Record t := mk {
  id : Z;
  special_id : option string;
  main_category : string;
  quality : string;
  class_name : string;
  class_name_ar : option string;
  class_name_en : option string;
  class_features : option string;
  class_price : option Z;
  class_weight : option Z;
  class_video : option string;
  created_at : Z;
  updated_at : Z
}.
End ClassRow.

Module PriceHistoryRow.
Record t := mk {
  id : Z;
  class_id : Z;
  old_price : option Z;
  new_price : option Z;
  changed_at : Z
}.
End PriceHistoryRow.

Module OrderRow.
Record t := mk {
  id : Z;
  order_id : Z;
  customer_full_name : string;
  customer_company : option string;
  customer_phone : option string;
  customer_sales_person : option string;
  customer_notes : option string;
  items : json;
  items_json : option json;
  known_total : Z;
  total_items : Z;
  has_unknown_prices : Z;
  language : string;
  created_at : Z
}.
End OrderRow.

(** The database the server opens. [foreign_keys] is the connection's
    [PRAGMA foreign_keys] flag: SQLite opens every connection with it off,
    and no statement of the server turns it on. [orders_has_items_json]
    records whether [PRAGMA table_info(orders)] lists an [items_json]
    column (an older table shape). *)
Record Database := mkDatabase {
  classes : list ClassRow.t;
  price_history : list PriceHistoryRow.t;
  orders : list OrderRow.t;
  next_class_rowid : Z;
  next_order_rowid : Z;
  orders_has_items_json : bool;
  foreign_keys : bool
}.

Definition set_classes (db : Database) (cs : list ClassRow.t) (next : Z) : Database :=
  mkDatabase cs (price_history db) (orders db) next (next_order_rowid db)
    (orders_has_items_json db) (foreign_keys db).

Definition set_orders (db : Database) (os : list OrderRow.t) (next : Z) : Database :=
  mkDatabase (classes db) (price_history db) os (next_class_rowid db) next
    (orders_has_items_json db) (foreign_keys db).

(** ** SQL statements on the [classes] table *)

Module Sql.

(** [SELECT * FROM classes WHERE id = ?] *)
Definition class_by_id (db : Database) (i : Z) : option ClassRow.t :=
  find (fun r => ClassRow.id r =? i) (classes db).

(** [SELECT ... FROM classes WHERE special_id = ?] (exact comparison). *)
Definition class_by_special_id (db : Database) (sid : string) : option ClassRow.t :=
  find (fun r => opt_str_eqb (ClassRow.special_id r) (Some sid)) (classes db).

(** The UNIQUE constraint on [special_id] for a row other than [except]
    taking the value [sid] ([NULL]s never collide). *)
Definition special_id_taken (db : Database) (except : Z) (sid : option string) : bool :=
  match sid with
  | None => false
  | Some s =>
      existsb (fun r => negb (ClassRow.id r =? except)
                        && opt_str_eqb (ClassRow.special_id r) (Some s)) (classes db)
  end.

(** The columns an UPDATE or INSERT of [classes.js] writes. *)
Record class_values := mkValues {
  v_special_id : option string;
  v_main_category : string;
  v_quality : string;
  v_class_name : string;
  v_class_name_ar : option string;
  v_class_name_en : option string;
  v_class_features : option string;
  v_class_price : option Z;
  v_class_weight : option Z;
  v_class_video : option string
}.

Definition apply_values (r : ClassRow.t) (v : class_values) (now : Z) : ClassRow.t :=
  ClassRow.mk (ClassRow.id r) (v_special_id v) (v_main_category v) (v_quality v)
    (v_class_name v) (v_class_name_ar v) (v_class_name_en v) (v_class_features v)
    (v_class_price v) (v_class_weight v) (v_class_video v)
    (ClassRow.created_at r) now.

(** [UPDATE classes SET special_id = ?, ..., updated_at = CURRENT_TIMESTAMP
    WHERE id = ?]; fails on the UNIQUE constraint of [special_id]. *)
Definition update_class_by_id (db : Database) (i : Z) (v : class_values) (now : Z)
  : option Database :=
  if special_id_taken db i (v_special_id v) then None
  else Some (set_classes db
         (map (fun r => if ClassRow.id r =? i then apply_values r v now else r) (classes db))
         (next_class_rowid db)).

(** [INSERT INTO classes (...) VALUES (...)]: a fresh rowid, both
    timestamps [CURRENT_TIMESTAMP]; fails on the UNIQUE constraint. *)
Definition insert_class (db : Database) (v : class_values) (now : Z) : option Database :=
  if special_id_taken db (next_class_rowid db) (v_special_id v) then None
  else
    let r := ClassRow.mk (next_class_rowid db) (v_special_id v) (v_main_category v)
               (v_quality v) (v_class_name v) (v_class_name_ar v) (v_class_name_en v)
               (v_class_features v) (v_class_price v) (v_class_weight v)
               (v_class_video v) now now in
    Some (set_classes db (classes db ++ [r])%list (next_class_rowid db + 1)).

(** [DELETE FROM classes WHERE id = ?]. The [ON DELETE CASCADE] of
    [price_history.class_id] is carried out by SQLite only when the
    connection has [foreign_keys] on. *)
Definition delete_class (db : Database) (i : Z) : Database :=
  mkDatabase (filter (fun r => negb (ClassRow.id r =? i)) (classes db))
    (if foreign_keys db
     then filter (fun h => negb (PriceHistoryRow.class_id h =? i)) (price_history db)
     else price_history db)
    (orders db) (next_class_rowid db) (next_order_rowid db)
    (orders_has_items_json db) (foreign_keys db).

End Sql.

(** ** Responses of the routes: a value, or an HTTP status with a message *)

Inductive response (A : Type) : Type :=
| Ok (a : A)
| Fail (status : Z) (message : string).
Arguments Ok {A} a.
Arguments Fail {A} status message.

(** [p !== undefined ? p : cur] *)
Definition if_defined {A : Type} (p : option A) (cur : A) : A :=
  match p with Some v => v | None => cur end.

(** [p || cur] for a string column that is not nullable. *)
Definition or_default (p : option string) (cur : string) : string :=
  match p with
  | Some v => if String.eqb v "" then cur else v
  | None => cur
  end.

(** [p || null] *)
Definition or_null (p : option string) : option string :=
  if truthy_str p then p else None.

(** ** Field parsing *)

Definition is_ws (c : ascii) : bool :=
  let n := nat_of_ascii c in
  (n =? 32)%nat || (n =? 9)%nat || (n =? 10)%nat || (n =? 13)%nat.

Fixpoint ltrim (l : list ascii) : list ascii :=
  match l with
  | c :: r => if is_ws c then ltrim r else l
  | [] => []
  end.

(** [String.prototype.trim] *)
Definition trim (s : string) : string :=
  string_of_list_ascii (rev (ltrim (rev (ltrim (list_ascii_of_string s))))).

Fixpoint digits_val (l : list ascii) (acc : Z) : option Z :=
  match l with
  | [] => Some acc
  | c :: r =>
      let n := Z.of_nat (nat_of_ascii c) in
      if (48 <=? n) && (n <=? 57) then digits_val r (acc * 10 + (n - 48)) else None
  end.

(** A number written in decimal digits, with an optional leading [-];
    [None] ([null]) for an empty or invalid text. *)
Definition parse_num (s : string) : option Z :=
  match list_ascii_of_string (trim s) with
  | [] => None
  | c :: r =>
      if (nat_of_ascii c =? 45)%nat
      then match r with [] => None | _ => option_map Z.opp (digits_val r 0) end
      else digits_val (c :: r) 0
  end.

(** The object [parseClassPayload] returns; [None] is [undefined]. *)
Record ClassPayload := mkPayload {
  p_specialId : option string;
  p_mainCategory : option string;
  p_quality : option string;
  p_className : option string;
  p_classNameArabic : option string;
  p_classNameEnglish : option string;
  p_classFeatures : option string;
  p_classPrice : option (option Z);
  p_classWeight : option (option Z);
  p_classVideo : option string;
  p_classVideoUrl : option string
}.

(** Modelled from the spec: [parseClassPayload] of [server/src/utils.js],
    which is not among the sources. Every field is read from the body under
    its payload name; text is trimmed; price and weight are parsed as
    numbers, falling back to null on an empty or invalid text (spec 4.5); a
    field absent from the body stays [undefined], so that an update applies
    only the fields present (spec 4.1). The second argument gives the
    default of [classVideo]. *)
Definition parseClassPayload (b : body) (default_video : option string) : ClassPayload :=
  let text k := option_map trim (field k b) in
  mkPayload (text "specialId") (text "mainCategory") (text "quality")
    (text "className") (text "classNameArabic") (text "classNameEnglish")
    (text "classFeatures")
    (option_map parse_num (field "classPrice" b))
    (option_map parse_num (field "classWeight" b))
    (match field "classVideo" b with Some v => Some v | None => default_video end)
    (field "classVideoUrl" b).

(** ** Catalog routes of [classes.js] *)

Module Catalog.

(** The [videoPath] of [PUT /api/classes/:id]. *)
Definition put_video_path (current : ClassRow.t) (file : option string)
    (classVideoUrl : option string) : option string :=
  match file with
  | Some f => Some ("/uploads/" ++ f)%string
  | None =>
      match classVideoUrl with
      | None => ClassRow.class_video current
      | Some u => if String.eqb u "__DELETE__" then None else Some u
      end
  end.

(** The values [updateStmt.run] of [PUT /api/classes/:id] writes. *)
Definition put_values (current : ClassRow.t) (payload : ClassPayload)
    (file : option string) : Sql.class_values :=
  Sql.mkValues
    (if truthy_str (p_specialId payload) then p_specialId payload
     else ClassRow.special_id current)
    (if_defined (p_mainCategory payload) (ClassRow.main_category current))
    (if_defined (p_quality payload) (ClassRow.quality current))
    (or_default (p_className payload) (ClassRow.class_name current))
    (if_defined (option_map Some (p_classNameArabic payload)) (ClassRow.class_name_ar current))
    (if_defined (option_map Some (p_classNameEnglish payload)) (ClassRow.class_name_en current))
    (if_defined (option_map Some (p_classFeatures payload)) (ClassRow.class_features current))
    (if_defined (p_classPrice payload) (ClassRow.class_price current))
    (if_defined (p_classWeight payload) (ClassRow.class_weight current))
    (put_video_path current file (p_classVideoUrl payload)).

(** [PUT /api/classes/:id] with the form body [b], the uploaded file name
    [file] and the clock [now]. *)
Definition classes_put (db : Database) (i : Z) (b : body) (file : option string) (now : Z)
  : Database * response ClassRow.t :=
  let payload := parseClassPayload b None in
  match Sql.class_by_id db i with
  | None => (db, Fail 404 "Class not found")
  | Some current =>
      match Sql.update_class_by_id db i (put_values current payload file) now with
      | None => (db, Fail 500 "Failed to update class")
      | Some db' =>
          match Sql.class_by_id db' i with
          | Some row => (db', Ok row)
          | None => (db', Fail 500 "Class updated but failed to retrieve record")
          end
      end
  end.

(** [DELETE /api/classes/:id] (204 on success). *)
Definition classes_delete (db : Database) (i : Z) : Database * response unit :=
  match Sql.class_by_id db i with
  | None => (db, Fail 404 "Class not found")
  | Some _ => (Sql.delete_class db i, Ok tt)
  end.

End Catalog.

(** ** The session cart ([GET/POST/PUT/DELETE /api/cart]) *)

Module Cart.

Record line := mkLine { classId : Z; quantity : Z }.

(** The session's [cart] and cached [cartTotal]. A session without a
    [cart] is the empty cart: every route reads [req.session.cart || []]
    or initialises it to [[]] before use. *)
Record session := mkSession { cart : list line; cartTotal : Z }.

Definition empty_session : session := mkSession [] 0.

(** [SELECT ... FROM classes WHERE id IN (ids)] *)
Definition select_in (catalog : list ClassRow.t) (ids : list Z) : list ClassRow.t :=
  filter (fun r => existsb (Z.eqb (ClassRow.id r)) ids) catalog.

(** [rows.find((row) => row.id === classId)] *)
Definition find_product (rows : list ClassRow.t) (c : Z) : option ClassRow.t :=
  find (fun r => ClassRow.id r =? c) rows.

(** [cart.find((item) => item.classId === classId)] *)
Definition find_line (c : Z) (l : list line) : option line :=
  find (fun x => classId x =? c) l.

(** [existingItem.quantity += 1] on the line [find] returned. *)
Fixpoint incr_first (c : Z) (l : list line) : list line :=
  match l with
  | [] => []
  | x :: r => if classId x =? c then mkLine (classId x) (quantity x + 1) :: r
              else x :: incr_first c r
  end.

(** [existingItem.quantity = quantity] on the line [find] returned. *)
Fixpoint set_first (c q : Z) (l : list line) : list line :=
  match l with
  | [] => []
  | x :: r => if classId x =? c then mkLine (classId x) q :: r
              else x :: set_first c q r
  end.

(** [cart.filter((item) => item.classId !== classId)] *)
Definition drop_lines (c : Z) (l : list line) : list line :=
  filter (fun x => negb (classId x =? c)) l.

(** [calculateCartTotal(session, callback)] *)
Definition calculateCartTotal (catalog : list ClassRow.t) (s : session) : Z :=
  match cart s with
  | [] => 0
  | cs =>
      let rows := select_in catalog (map classId cs) in
      fold_left (fun total item =>
          match find_product rows (classId item) with
          | Some p =>
              match ClassRow.class_price p with
              | Some price => total + price * quantity item
              | None => total
              end
          | None => total
          end) cs 0
  end.

(** The body of [GET /api/cart]. The [record] of an item is the product
    row (the route copies its columns into the response). *)
Record view := mkView {
  items : list (ClassRow.t * Z);
  totalItems : Z;
  knownTotal : Z;
  hasUnknownPrices : bool
}.

Fixpoint drop_nulls {A : Type} (l : list (option A)) : list A :=
  match l with
  | [] => []
  | Some x :: r => x :: drop_nulls r
  | None :: r => drop_nulls r
  end.

(** The [items.forEach] of [GET /api/cart], from
    [(totalItems, knownTotal, hasUnknownPrices)]. *)
Definition accumulate (acc : Z * Z * bool) (item : ClassRow.t * Z) : Z * Z * bool :=
  let '(ti, kt, hu) := acc in
  let '(record, q) := item in
  match ClassRow.class_price record with
  | None => (ti + q, kt, true)
  | Some price => (ti + q, kt + price * q, hu)
  end.

(** [GET /api/cart]. The items keep the joined catalog row; the route
    itself shapes each row for the response, reading [class_name_arabic]
    and [class_name_english] (columns the table does not have, so both
    come out [null]) and applying [|| null] to the features and video
    fields. The totals do not depend on that shaping. *)
Definition cart_view (catalog : list ClassRow.t) (s : session) : response view :=
  match cart s with
  | [] => Ok (mkView [] 0 0 false)
  | cs =>
      let rows := select_in catalog (map classId cs) in
      let its := drop_nulls (map (fun item =>
                    match find_product rows (classId item) with
                    | Some p => Some (p, quantity item)
                    | None => None
                    end) cs) in
      let '(ti, kt, hu) := fold_left accumulate its (0, 0, false) in
      Ok (mkView its ti kt hu)
  end.

(** [POST /api/cart/add] with a numeric [classId]; the response carries
    the recomputed [cartTotal]. *)
Definition cart_add (catalog : list ClassRow.t) (s : session) (c : Z) : session * response Z :=
  if c =? 0 then (s, Fail 400 "Invalid classId")
  else
    let cs := match find_line c (cart s) with
              | Some _ => incr_first c (cart s)
              | None => (cart s ++ [mkLine c 1])%list
              end in
    let total := calculateCartTotal catalog (mkSession cs (cartTotal s)) in
    (mkSession cs total, Ok total).

(** [PUT /api/cart/update] with a numeric [classId] and [quantity]. *)
Definition cart_update (catalog : list ClassRow.t) (s : session) (c q : Z)
  : session * response Z :=
  if c =? 0 then (s, Fail 400 "Invalid classId")
  else if q <? 0 then (s, Fail 400 "Invalid quantity")
  else
    match find_line c (cart s) with
    | None => (s, Fail 404 "Item not found in cart")
    | Some _ =>
        let cs := if q =? 0 then drop_lines c (cart s) else set_first c q (cart s) in
        let total := calculateCartTotal catalog (mkSession cs (cartTotal s)) in
        (mkSession cs total, Ok total)
    end.

(** [DELETE /api/cart/remove/:classId]; [c] is [parseInt] of the path
    parameter, [None] for [NaN]. *)
Definition cart_remove (catalog : list ClassRow.t) (s : session) (c : option Z)
  : session * response Z :=
  match c with
  | None => (s, Fail 400 "Invalid classId")
  | Some c =>
      let cs := drop_lines c (cart s) in
      let total := calculateCartTotal catalog (mkSession cs (cartTotal s)) in
      (mkSession cs total, Ok total)
  end.

(** [DELETE /api/cart/clear] *)
Definition cart_clear (s : session) : session * response unit :=
  (mkSession [] 0, Ok tt).

Inductive cart_op :=
| OpAdd (c : Z)
| OpUpdate (c q : Z)
| OpRemove (c : option Z)
| OpClear.

Definition step (catalog : list ClassRow.t) (s : session) (op : cart_op) : session :=
  match op with
  | OpAdd c => fst (cart_add catalog s c)
  | OpUpdate c q => fst (cart_update catalog s c q)
  | OpRemove c => fst (cart_remove catalog s c)
  | OpClear => fst (cart_clear s)
  end.

(** A session's history: each operation with the catalog at its time. *)
Fixpoint run (hist : list (list ClassRow.t * cart_op)) (s : session) : session :=
  match hist with
  | [] => s
  | (catalog, op) :: r => run r (step catalog s op)
  end.

(** The cart view as the claims describe it: each line joined with the
    catalog's record of its [classId]. *)
Definition lookup (catalog : list ClassRow.t) (c : Z) : option ClassRow.t :=
  find (fun r => ClassRow.id r =? c) catalog.

Definition joined (catalog : list ClassRow.t) (l : line) : option (ClassRow.t * Z) :=
  match lookup catalog (classId l) with
  | Some p => Some (p, quantity l)
  | None => None
  end.

Definition known_total_spec (catalog : list ClassRow.t) (cs : list line) : Z :=
  fold_right (fun l acc =>
      match lookup catalog (classId l) with
      | Some p => match ClassRow.class_price p with
                  | Some price => quantity l * price + acc
                  | None => acc
                  end
      | None => acc
      end) 0 cs.

Definition total_items_spec (catalog : list ClassRow.t) (cs : list line) : Z :=
  fold_right (fun l acc =>
      match lookup catalog (classId l) with
      | Some _ => quantity l + acc
      | None => acc
      end) 0 cs.

Definition has_unknown_spec (catalog : list ClassRow.t) (cs : list line) : bool :=
  existsb (fun l =>
      match lookup catalog (classId l) with
      | Some p => match ClassRow.class_price p with None => true | Some _ => false end
      | None => false
      end) cs.

End Cart.

(** ** The order ledger ([POST /api/orders]) *)

Module Orders.

Record CustomerInfo := mkCustomer {
  fullName : option string;
  company : option string;
  phone : option string;
  salesPerson : option string;
  notes : option string
}.

(** [req.body] of [POST /api/orders]; [None] is [undefined]. *)
Record OrderPayload := mkOrderPayload {
  orderId : option Z;
  customerInfo : option CustomerInfo;
  items : option json;
  knownTotal : option Z;
  totalItems : option Z;
  hasUnknownPrices : option bool;
  language : option string
}.

Definition truthy_json (j : option json) : bool :=
  match j with
  | None | Some JNull | Some (JBool false) | Some (JNum 0) | Some (JStr "") => false
  | Some _ => true
  end.

Definition truthy_num (z : option Z) : bool :=
  match z with None | Some 0 => false | Some _ => true end.

(** [INSERT INTO orders (...)]; fails on the UNIQUE constraint of
    [order_id]. *)
Definition insert_order (db : Database) (r : OrderRow.t) : option Database :=
  if existsb (fun o => OrderRow.order_id o =? OrderRow.order_id r) (orders db) then None
  else Some (set_orders db (orders db ++ [r])%list (next_order_rowid db + 1)).

(** The row the INSERT of the route writes. [now] is
    [getTurkeyTimestamp()] (or [CURRENT_TIMESTAMP]); [with_items_json]
    whether the [items_json] column is also written. *)
Definition order_row (db : Database) (oid : Z) (ci : CustomerInfo) (its : json)
    (kt : Z) (p : OrderPayload) (with_items_json : bool) (now : Z) : OrderRow.t :=
  OrderRow.mk (next_order_rowid db) oid
    (or_default (fullName ci) "")
    (or_null (company ci)) (or_null (phone ci)) (or_null (salesPerson ci))
    (or_null (notes ci))
    its (if with_items_json then Some its else None)
    kt
    (match totalItems p with Some n => n | None => 0 end)
    (match hasUnknownPrices p with Some true => 1 | _ => 0 end)
    (or_default (language p) "es")
    now.

Definition insert_and_respond (db : Database) (r : OrderRow.t) : Database * response OrderRow.t :=
  match insert_order db r with
  | None => (db, Fail 409 "Order with this ID already exists")
  | Some db' => (db', Ok r)
  end.

(** [POST /api/orders] of the orders router that writes [created_at]
    with [getTurkeyTimestamp()] and probes for [items_json]. *)
Definition create_order (db : Database) (p : OrderPayload) (now : Z)
  : Database * response OrderRow.t :=
  match items p with
  | Some (JArr l) =>
      match orderId p, customerInfo p, knownTotal p with
      | Some oid, Some ci, Some kt =>
          if oid =? 0 then (db, Fail 400 "Missing required fields")
          else insert_and_respond db
                 (order_row db oid ci (JArr l) kt p (orders_has_items_json db) now)
      | _, _, _ => (db, Fail 400 "Missing required fields")
      end
  | _ => (db, Fail 400 "Invalid items: must be an array")
  end.

(** [POST /api/orders] of [server/src/routes/orders.js]. *)
Definition create_order_v1 (db : Database) (p : OrderPayload) (now : Z)
  : Database * response OrderRow.t :=
  if negb (truthy_json (items p)) then (db, Fail 400 "Missing required fields")
  else
    match orderId p, customerInfo p, knownTotal p, items p with
    | Some oid, Some ci, Some kt, Some its =>
        if oid =? 0 then (db, Fail 400 "Missing required fields")
        else insert_and_respond db (order_row db oid ci its kt p false now)
    | _, _, _, _ => (db, Fail 400 "Missing required fields")
    end.

End Orders.

(** ** The bulk sync engine ([POST /api/classes/bulk-upload]) *)

Module Bulk.

Definition defined_fields (l : list (string * option string)) : body :=
  fold_right (fun kv acc => match snd kv with Some v => (fst kv, v) :: acc | None => acc end)
    [] l.

(** The [record] built from a spreadsheet row by its column synonyms. *)
Definition build_record (row : body) : body :=
  let f k := field k row in
  defined_fields [
    ("specialId", or_js (f "Special ID") (f "special_id"));
    ("mainCategory", or_js (f "Main Category") (f "main_category"));
    ("quality", or_js (or_js (or_js (f "Group") (f "group")) (f "Quality")) (f "quality"));
    ("className", or_js (f "Class Name") (f "class_name"));
    ("classNameArabic", or_js (f "Class Name Arabic") (f "class_name_ar"));
    ("classNameEnglish", or_js (f "Class Name English") (f "class_name_en"));
    ("classFeatures", or_js (f "Class Features") (f "class_features"));
    ("classPrice", or_js (f "Class Price") (f "class_price"));
    ("classWeight", or_js (or_js (f "Class KG") (f "class_weight")) (f "Class Weight"));
    ("classVideo", or_js (f "Class Video") (f "class_video"))].

(** [parseClassPayload(record, { classVideo: record.classVideo || null })] *)
Definition parse_row (row : body) : ClassPayload :=
  let record := build_record row in
  parseClassPayload record (or_null (field "classVideo" record)).

(** What the synchronous [rows.forEach] does with the rows from position
    [index] on: a skip entry, or one pending lookup-then-write. *)
Fixpoint phase1_from (index : Z) (rows : list body)
  : list (Z * string) * list (Z * ClassPayload) :=
  match rows with
  | [] => ([], [])
  | row :: r =>
      let '(sk, q) := phase1_from (index + 1) r in
      let parsed := parse_row row in
      if truthy_str (p_specialId parsed)
      then (sk, (index, parsed) :: q)
      else ((index + 2, "Special ID is required.") :: sk, q)
  end.

Definition phase1 (rows : list body) : list (Z * string) * list (Z * ClassPayload) :=
  phase1_from 0 rows.

Definition unique_failed : string := "SQLITE_CONSTRAINT: UNIQUE constraint failed: classes.special_id".

(** [UPDATE classes SET main_category = ?, ... WHERE special_id = ?] *)
Definition update_by_special_id (db : Database) (sid : string) (v : Sql.class_values) (now : Z)
  : Database :=
  set_classes db
    (map (fun r => if opt_str_eqb (ClassRow.special_id r) (Some sid)
                   then Sql.apply_values r v now else r) (classes db))
    (next_class_rowid db).

(** The values the bulk [updateStmt] or [insertStmt] write for a row. *)
Definition row_values (sid : string) (parsed : ClassPayload) (classNameValue : string)
  : Sql.class_values :=
  Sql.mkValues (Some sid)
    (if_defined (p_mainCategory parsed) "")
    (if_defined (p_quality parsed) "")
    classNameValue
    (or_null (p_classNameArabic parsed))
    (or_null (p_classNameEnglish parsed))
    (or_null (p_classFeatures parsed))
    (if_defined (p_classPrice parsed) None)
    (if_defined (p_classWeight parsed) None)
    (or_null (p_classVideo parsed)).

(** The state the row callbacks share. *)
Record progress := mkProgress {
  pdb : Database;
  processed : list (ClassPayload * string);
  skipped2 : list (Z * string)
}.

(** The lookup of a pending row by [special_id] and the write its
    callback issues. *)
Definition apply_row (updateOnly : bool) (now : Z) (st : progress) (job : Z * ClassPayload)
  : progress :=
  let '(index, parsed) := job in
  let db := pdb st in
  let sid := match p_specialId parsed with Some s => s | None => "" end in
  let existing := Sql.class_by_special_id db sid in
  let classNameValue :=
    if truthy_str (p_className parsed) then if_defined (p_className parsed) ""
    else match existing with Some e => ClassRow.class_name e | None => "" end in
  match existing with
  | Some _ =>
      mkProgress (update_by_special_id db sid (row_values sid parsed classNameValue) now)
        (processed st ++ [(parsed, "updated")])%list (skipped2 st)
  | None =>
      if updateOnly
      then mkProgress db (processed st)
             (skipped2 st ++ [(index + 2, "Record not found (update only mode).")])%list
      else match Sql.insert_class db (row_values sid parsed classNameValue) now with
           | Some db' => mkProgress db' (processed st ++ [(parsed, "created")])%list (skipped2 st)
           | None => mkProgress db (processed st) (skipped2 st ++ [(index + 2, unique_failed)])%list
           end
  end.

Record report := mkReport {
  processedCount : Z;
  skippedCount : Z;
  skipped : list (Z * string)
}.

Inductive bulk_response :=
| BulkFail (status : Z) (message : string)
| BulkReport (r : report)
(** no [res.json] is ever called: the request gets no response *)
| NoResponse.

(** [POST /api/classes/bulk-upload] on the rows of the uploaded sheet.
    The response is sent by the callback that brings [pendingOperations]
    back to 0; when no row reached a lookup, no callback runs. *)
Definition bulk_upload (db : Database) (updateOnly : bool) (rows : list body) (now : Z)
  : Database * bulk_response :=
  match rows with
  | [] => (db, BulkFail 400 "Excel sheet is empty.")
  | _ =>
      let '(skipped1, queue) := phase1 rows in
      match queue with
      | [] => (db, NoResponse)
      | _ =>
          let st := fold_left (apply_row updateOnly now) queue (mkProgress db [] []) in
          let sk := (skipped1 ++ skipped2 st)%list in
          (pdb st, BulkReport (mkReport (Z.of_nat (List.length (processed st)))
                                        (Z.of_nat (List.length sk)) sk))
      end
  end.

End Bulk.

(** ** More catalog routes of [classes.js] *)

Module CatalogMore.

(** [payload.specialId], or [await getNextSpecialId()] when it is falsy. *)
Definition post_special_id (payload : ClassPayload) (gen : string) : option string :=
  if truthy_str (p_specialId payload) then p_specialId payload else Some gen.

(** [POST /api/classes]. [gen] is the id [getNextSpecialId()] resolves to
    ([server/src/utils.js] is not among the sources); the route uses it only
    when the payload has no [specialId]. *)
Definition classes_post (db : Database) (b : body) (file : option string) (gen : string)
    (now : Z) : Database * response ClassRow.t :=
  let payload := parseClassPayload b None in
  if negb (truthy_str (p_className payload)) then (db, Fail 400 "Class name is required.")
  else
    let specialId := post_special_id payload gen in
    let videoPath := match file with
                     | Some f => Some ("/uploads/" ++ f)%string
                     | None => p_classVideoUrl payload
                     end in
    let v := Sql.mkValues specialId
               (if_defined (p_mainCategory payload) "")
               (if_defined (p_quality payload) "")
               (if_defined (p_className payload) "")
               (or_null (p_classNameArabic payload))
               (or_null (p_classNameEnglish payload))
               (or_null (p_classFeatures payload))
               (if_defined (p_classPrice payload) None)
               (if_defined (p_classWeight payload) None)
               videoPath in
    match Sql.insert_class db v now with
    | None => (db, Fail 500 "Failed to create class")
    | Some db' =>
        match Sql.class_by_id db' (next_class_rowid db) with
        | Some row => (db', Ok row)
        | None => (db', Fail 500 "Class created but failed to retrieve record")
        end
    end.

(** [DELETE /api/classes]: [DELETE FROM classes], answering
    [deletedCount] ([this.changes]). With [foreign_keys] on, the cascade
    removes the history entries of the deleted records. *)
Definition classes_purge (db : Database) : Database * response Z :=
  let db' := mkDatabase []
               (if foreign_keys db
                then filter (fun h => negb (existsb (fun r => ClassRow.id r =? PriceHistoryRow.class_id h)
                                                    (classes db)))
                            (price_history db)
                else price_history db)
               (orders db) (next_class_rowid db) (next_order_rowid db)
               (orders_has_items_json db) (foreign_keys db) in
  (db', Ok (Z.of_nat (List.length (classes db)))).

Definition is_digit (c : ascii) : bool :=
  let n := nat_of_ascii c in (48 <=? n)%nat && (n <=? 57)%nat.

(** [/^\d+$/.test(identifier)] *)
Definition is_numeric_id (s : string) : bool :=
  match list_ascii_of_string s with
  | [] => false
  | l => forallb is_digit l
  end.

(** ASCII lower-casing: SQLite's [LOWER] (which folds ASCII letters only)
    and, on ASCII text, [String.prototype.toLowerCase] (which also folds
    other letters: statements about identifiers assume ASCII ones). *)
Definition lower_char (c : ascii) : ascii :=
  let n := nat_of_ascii c in
  if (65 <=? n)%nat && (n <=? 90)%nat then ascii_of_nat (n + 32) else c.

Definition lower (s : string) : string :=
  string_of_list_ascii (map lower_char (list_ascii_of_string s)).

Definition is_ascii (s : string) : bool :=
  forallb (fun c => (nat_of_ascii c <? 128)%nat) (list_ascii_of_string s).

(** [GET /api/classes/:identifier]: a numeric identifier is compared with
    [id] (SQLite converts the text parameter to an integer for the
    INTEGER column), any other with [LOWER(special_id)]. *)
Definition classes_get (db : Database) (identifier : string) : response ClassRow.t :=
  let found :=
    if is_numeric_id identifier
    then match digits_val (list_ascii_of_string identifier) 0 with
         | Some n => Sql.class_by_id db n
         | None => None
         end
    else find (fun r => match ClassRow.special_id r with
                        | Some sid => String.eqb (lower sid) (lower identifier)
                        | None => false
                        end) (classes db) in
  match found with
  | Some row => Ok row
  | None => Fail 404 "Class not found"
  end.

End CatalogMore.

(** ** More order routes ([server/src/routes/orders.js]) *)

Module OrderRoutes.

(** The JSON object the order routes answer with. *)
Record OrderView := mkOrderView {
  ov_id : Z;
  ov_orderId : Z;
  ov_fullName : string;
  ov_company : string;
  ov_phone : string;
  ov_salesPerson : string;
  ov_notes : string;
  ov_items : json;
  ov_knownTotal : Z;
  ov_totalItems : Z;
  ov_hasUnknownPrices : bool;
  ov_language : string;
  ov_createdAt : Z
}.

Definition or_empty (s : option string) : string :=
  match s with Some v => v | None => "" end.

Definition order_response (row : OrderRow.t) : OrderView :=
  mkOrderView (OrderRow.id row) (OrderRow.order_id row) (OrderRow.customer_full_name row)
    (or_empty (OrderRow.customer_company row)) (or_empty (OrderRow.customer_phone row))
    (or_empty (OrderRow.customer_sales_person row)) (or_empty (OrderRow.customer_notes row))
    (OrderRow.items row) (OrderRow.known_total row) (OrderRow.total_items row)
    (OrderRow.has_unknown_prices row =? 1)
    (or_default (Some (OrderRow.language row)) "es")
    (OrderRow.created_at row).

(** [GET /api/orders/:orderId] *)
Definition get_order (db : Database) (oid : Z) : response OrderView :=
  match find (fun o => OrderRow.order_id o =? oid) (orders db) with
  | Some row => Ok (order_response row)
  | None => Fail 404 "Order not found"
  end.

(** [DELETE /api/orders/:orderId]: 404 when [this.changes === 0]. *)
Definition delete_order (db : Database) (oid : Z) : Database * response unit :=
  let kept := filter (fun o => negb (OrderRow.order_id o =? oid)) (orders db) in
  if (List.length kept =? List.length (orders db))%nat
  then (db, Fail 404 "Order not found")
  else (set_orders db kept (next_order_rowid db), Ok tt).

End OrderRoutes.

(** ** Column migrations of [initializeDatabase] ([db.js]) *)

Module Migrations.

Definition mem (c : string) (cols : list string) : bool := existsb (String.eqb c) cols.

(** The [PRAGMA table_info(classes)] check: each missing column is added
    by [ALTER TABLE classes ADD COLUMN], in this order. *)
Definition migrate_classes (cols : list string) : list string :=
  (cols ++ filter (fun c => negb (mem c cols))
                  ["class_weight"; "class_name_ar"; "class_name_en"; "class_quantity"])%list.

(** The [PRAGMA table_info(orders)] check on the [items]/[items_json]
    columns: rename [items_json] to [items] when only the former exists,
    add [items] when neither does. *)
Definition migrate_orders (cols : list string) : list string :=
  if mem "items_json" cols && mem "items" cols then cols
  else if mem "items_json" cols && negb (mem "items" cols)
  then map (fun c => if String.eqb c "items_json" then "items" else c) cols
  else if mem "items" cols then cols
  else (cols ++ ["items"])%list.

End Migrations.

(** ** Invariants the routes keep *)

Module Invariants.

(** Every record's rowid is below the AUTOINCREMENT counter, and a
    [special_id] value belongs to at most one record id (UNIQUE). *)
Definition same_special_id (r1 r2 : ClassRow.t) : bool :=
  match ClassRow.special_id r1, ClassRow.special_id r2 with
  | Some a, Some b => String.eqb a b
  | _, _ => false
  end.

Definition catalog_okb (db : Database) : bool :=
  forallb (fun r => ClassRow.id r <? next_class_rowid db) (classes db)
  && forallb (fun r1 => forallb (fun r2 => negb (same_special_id r1 r2)
                                            || (ClassRow.id r1 =? ClassRow.id r2))
                                (classes db)) (classes db).

Definition catalog_ok (db : Database) : Prop :=
  (forall r, In r (classes db) -> ClassRow.id r < next_class_rowid db)
  /\ (forall r1 r2 s, In r1 (classes db) -> In r2 (classes db) ->
        ClassRow.special_id r1 = Some s -> ClassRow.special_id r2 = Some s ->
        ClassRow.id r1 = ClassRow.id r2).

Fixpoint nodupb (l : list Z) : bool :=
  match l with
  | [] => true
  | x :: r => negb (existsb (Z.eqb x) r) && nodupb r
  end.

(** A cart holds one line per [classId], each with a positive quantity. *)
Definition cart_okb (cs : list Cart.line) : bool :=
  nodupb (map Cart.classId cs) && forallb (fun l => 0 <? Cart.quantity l) cs.

Definition cart_ok (cs : list Cart.line) : Prop :=
  NoDup (map Cart.classId cs) /\ Forall (fun l => 0 < Cart.quantity l) cs.

(** A cart route either rejects the request and leaves the session as it
    was, or answers with the [cartTotal] it caches, which is the
    [knownTotal] of [GET /api/cart] in the same catalog. *)
Definition cached_total_agrees (catalog : list ClassRow.t) (s : Cart.session)
    (r : Cart.session * response Z) : Prop :=
  match r with
  | (s', Ok t) => Cart.cartTotal s' = t
                  /\ exists v, Cart.cart_view catalog s' = Ok v /\ Cart.knownTotal v = t
  | (s', Fail _ _) => s' = s
  end.

End Invariants.

(** ** Concrete states *)

Module Fixtures.

Definition box : ClassRow.t :=
  ClassRow.mk 1 (Some "CR01") "Boxes" "A" "Box" None None None (Some 10) None None 0 0.

Definition db0 : Database := mkDatabase [box] [] [] 2 1 false false.

Definition box_history : PriceHistoryRow.t := PriceHistoryRow.mk 1 1 (Some 8) (Some 10) 0.

Definition box_order : OrderRow.t :=
  OrderRow.mk 1 1001 "Ana" None None None None
    (JArr [JObj [("classId", JNum 1); ("quantity", JNum 2); ("className", JStr "Box")]])
    None 20 2 0 "es" 3.

(** The database as the server opens it ([foreign_keys] off) holding a
    product with one price-history entry and one order referencing it. *)
Definition db_with_history : Database :=
  mkDatabase [box] [box_history] [box_order] 2 2 false false.

Definition box_session : Cart.session := Cart.mkSession [Cart.mkLine 1 2] 20.

End Fixtures.

Import Fixtures.

Example parse_num_12 : parse_num " 12 " = Some 12.
Proof. reflexivity. Qed.

Example parse_num_invalid : parse_num "12a" = None.
Proof. reflexivity. Qed.

Example put_price_12 :
  snd (Catalog.classes_put db0 1 [("classPrice", "12")] None 5)
  = Ok (ClassRow.mk 1 (Some "CR01") "Boxes" "A" "Box" None None None (Some 12) None None 0 5).
Proof. reflexivity. Qed.

Example view_box :
  Cart.cart_view [box] box_session = Ok (Cart.mkView [(box, 2)] 2 20 false).
Proof. reflexivity. Qed.

(** ** Lemmas on the catalog routes *)

Lemma update_class_by_id_history (db db' : Database) (i : Z) (v : Sql.class_values) (now : Z) :
  Sql.update_class_by_id db i v now = Some db' -> price_history db' = price_history db.
Proof.
  unfold Sql.update_class_by_id. destruct (Sql.special_id_taken _ _ _); intro H.
  - discriminate.
  - injection H as <-. reflexivity.
Qed.

Lemma classes_put_history (db : Database) (i : Z) (b : body) (file : option string) (now : Z) :
  price_history (fst (Catalog.classes_put db i b file now)) = price_history db.
Proof.
  unfold Catalog.classes_put.
  destruct (Sql.class_by_id db i) as [current|]; [|reflexivity].
  destruct (Sql.update_class_by_id _ _ _ _) as [db'|] eqn:U; [|reflexivity].
  apply update_class_by_id_history in U.
  destruct (Sql.class_by_id db' i); exact U.
Qed.

Lemma apply_row_history (u : bool) (now : Z) (st : Bulk.progress) (job : Z * ClassPayload) :
  price_history (Bulk.pdb (Bulk.apply_row u now st job)) = price_history (Bulk.pdb st).
Proof.
  destruct job as [index parsed]. unfold Bulk.apply_row.
  destruct (Sql.class_by_special_id _ _); [reflexivity|].
  destruct u; [reflexivity|].
  unfold Sql.insert_class.
  destruct (Sql.special_id_taken _ _ _); reflexivity.
Qed.

Lemma fold_apply_row_history (u : bool) (now : Z) (jobs : list (Z * ClassPayload)) :
  forall st, price_history (Bulk.pdb (fold_left (Bulk.apply_row u now) jobs st))
             = price_history (Bulk.pdb st).
Proof.
  induction jobs as [|j jobs IH]; intro st; simpl; [reflexivity|].
  rewrite IH. apply apply_row_history.
Qed.

Lemma bulk_upload_history (db : Database) (u : bool) (rows : list body) (now : Z) :
  price_history (fst (Bulk.bulk_upload db u rows now)) = price_history db.
Proof.
  unfold Bulk.bulk_upload. destruct rows as [|row rows]; [reflexivity|].
  destruct (Bulk.phase1 (row :: rows)) as [skipped1 queue].
  destruct queue as [|j queue]; [reflexivity|].
  simpl fst. rewrite fold_apply_row_history, apply_row_history. reflexivity.
Qed.

Lemma classes_delete_orders (db : Database) (i : Z) :
  orders (fst (Catalog.classes_delete db i)) = orders db.
Proof.
  unfold Catalog.classes_delete. destruct (Sql.class_by_id db i); reflexivity.
Qed.

(** With [foreign_keys] on, the schema's cascade does remove the entries. *)
Lemma classes_delete_cascades_when_enforced (db : Database) (i : Z) (h : PriceHistoryRow.t) :
  foreign_keys db = true ->
  In h (price_history (fst (Catalog.classes_delete db i))) ->
  Sql.class_by_id db i <> None ->
  PriceHistoryRow.class_id h <> i.
Proof.
  intros F Hin Hex. unfold Catalog.classes_delete in Hin.
  destruct (Sql.class_by_id db i); [|congruence].
  simpl in Hin. rewrite F in Hin.
  apply filter_In in Hin as [_ Hneq].
  intro E. rewrite E, Z.eqb_refl in Hneq. discriminate.
Qed.

(** ** C1 *)

(** C1 (failing input): changing the price of record 1 from 10 to 12
    through [PUT /api/classes/1] appends no price-history entry, although
    the schema declares the [price_history] table and the admin client
    reads it back as the record's price changes. *)
Lemma C1_put_appends_no_history :
  snd (Catalog.classes_put db0 1 [("classPrice", "12")] None 5)
    = Ok (ClassRow.mk 1 (Some "CR01") "Boxes" "A" "Box" None None None (Some 12) None None 0 5)
  /\ ClassRow.class_price box = Some 10
  /\ price_history (fst (Catalog.classes_put db0 1 [("classPrice", "12")] None 5)) = []
  /\ price_history db0 = [].
Proof. repeat split; reflexivity. Qed.

(** C1 (divergence): neither the catalog update route nor the bulk sync
    (whose update statement also rewrites [class_price]) writes to the
    [price_history] table, whatever the price change: a price change from
    a to b (a <> b) appends no entry, where one is expected. *)
Theorem C1_updates_leave_price_history :
  (forall db i b file now,
      price_history (fst (Catalog.classes_put db i b file now)) = price_history db)
  /\ (forall db u rows now,
      price_history (fst (Bulk.bulk_upload db u rows now)) = price_history db).
Proof.
  split; intros.
  - apply classes_put_history.
  - apply bulk_upload_history.
Qed.

(** ** C2 *)

(** C2 (failing input): deleting record 1 from the database the server
    opens leaves its price-history entry in place, while the cart view no
    longer shows its line and the order referencing it is unchanged. *)
Theorem C2_delete_keeps_history_entries :
  let '(db', r) := Catalog.classes_delete db_with_history 1 in
  r = Ok tt
  /\ price_history db' = [box_history]
  /\ PriceHistoryRow.class_id box_history = 1
  /\ Cart.cart_view (classes db') box_session = Ok (Cart.mkView [] 0 0 false)
  /\ orders db' = orders db_with_history.
Proof. vm_compute. repeat split; reflexivity. Qed.

(** ** Lemmas on the cart *)

Module CartFacts.
Import Cart.

Lemma find_select_in (catalog : list ClassRow.t) (ids : list Z) (c : Z) :
  In c ids -> find_product (select_in catalog ids) c = lookup catalog c.
Proof.
  intro Hc. unfold find_product, select_in, lookup.
  induction catalog as [|r catalog IH]; simpl; [reflexivity|].
  destruct (existsb (Z.eqb (ClassRow.id r)) ids) eqn:E; simpl.
  - destruct (ClassRow.id r =? c); [reflexivity|exact IH].
  - destruct (ClassRow.id r =? c) eqn:E2; [|exact IH].
    apply Z.eqb_eq in E2. exfalso.
    assert (existsb (Z.eqb (ClassRow.id r)) ids = true) as T.
    { apply existsb_exists. exists c. split; [exact Hc|]. rewrite E2. apply Z.eqb_refl. }
    congruence.
Qed.

Lemma view_items_joined (catalog : list ClassRow.t) (cs : list line) :
  map (fun item => match find_product (select_in catalog (map classId cs)) (classId item) with
                   | Some p => Some (p, quantity item)
                   | None => None
                   end) cs
  = map (joined catalog) cs.
Proof.
  apply map_ext_in. intros l Hl. unfold joined.
  rewrite find_select_in; [reflexivity|].
  apply in_map. exact Hl.
Qed.

Lemma accumulate_joined (catalog : list ClassRow.t) (cs : list line) :
  forall ti kt hu,
  fold_left accumulate (drop_nulls (map (joined catalog) cs)) (ti, kt, hu)
  = (ti + total_items_spec catalog cs, kt + known_total_spec catalog cs,
     hu || has_unknown_spec catalog cs).
Proof.
  induction cs as [|l cs IH]; intros ti kt hu; simpl.
  - rewrite !Z.add_0_r, orb_false_r. reflexivity.
  - unfold joined at 1.
    destruct (lookup catalog (classId l)) as [p|] eqn:L; simpl.
    + destruct (ClassRow.class_price p) as [price|] eqn:P; simpl; rewrite IH.
      * apply (f_equal2 pair); [apply (f_equal2 pair); ring|reflexivity].
      * rewrite orb_true_r. apply (f_equal2 pair); [apply (f_equal2 pair); ring|reflexivity].
    + rewrite IH. reflexivity.
Qed.

(** The cart view is the join of the cart's lines with the current
    catalog, with its totals computed from the joined lines. *)
Lemma cart_view_spec (catalog : list ClassRow.t) (s : session) :
  cart_view catalog s
  = Ok (mkView (drop_nulls (map (joined catalog) (cart s)))
               (total_items_spec catalog (cart s))
               (known_total_spec catalog (cart s))
               (has_unknown_spec catalog (cart s))).
Proof.
  unfold cart_view. destruct (cart s) as [|l cs] eqn:E; [reflexivity|].
  rewrite view_items_joined, accumulate_joined. reflexivity.
Qed.

(** The totals depend on the cart only through its joined lines. *)
Lemma specs_of_joined (catalog : list ClassRow.t) (cs cs' : list line) :
  map (joined catalog) cs = map (joined catalog) cs' ->
  total_items_spec catalog cs = total_items_spec catalog cs'
  /\ known_total_spec catalog cs = known_total_spec catalog cs'
  /\ has_unknown_spec catalog cs = has_unknown_spec catalog cs'.
Proof.
  revert cs'. induction cs as [|l cs IH]; intros [|l' cs'] H; try discriminate.
  - repeat split.
  - simpl in H. injection H as Hl Hcs.
    destruct (IH cs' Hcs) as (T & K & U).
    unfold joined in Hl. simpl. rewrite T, K, U.
    destruct (lookup catalog (classId l)) as [p|] eqn:L1;
      destruct (lookup catalog (classId l')) as [p'|] eqn:L2; try discriminate.
    + injection Hl as <- <-. repeat split.
    + repeat split.
Qed.

Lemma specs_app_missing (catalog : list ClassRow.t) (cs : list line) (l : line) :
  lookup catalog (classId l) = None ->
  total_items_spec catalog (cs ++ [l])%list = total_items_spec catalog cs
  /\ known_total_spec catalog (cs ++ [l])%list = known_total_spec catalog cs
  /\ has_unknown_spec catalog (cs ++ [l])%list = has_unknown_spec catalog cs.
Proof.
  intro L. induction cs as [|x cs (T & K & U)]; simpl.
  - rewrite L. repeat split.
  - rewrite T, K, U. repeat split.
Qed.

Lemma joined_incr_missing (catalog : list ClassRow.t) (c : Z) (cs : list line) :
  lookup catalog c = None ->
  map (joined catalog) (incr_first c cs) = map (joined catalog) cs.
Proof.
  intro L. induction cs as [|x cs IH]; simpl; [reflexivity|].
  destruct (classId x =? c) eqn:E; simpl.
  - apply Z.eqb_eq in E. unfold joined. simpl. rewrite E, L. reflexivity.
  - rewrite IH. reflexivity.
Qed.

Lemma drop_nulls_app_none {A : Type} (l : list (option A)) :
  drop_nulls (l ++ [None])%list = drop_nulls l.
Proof. induction l as [|[x|] l IH]; simpl; try rewrite IH; reflexivity. Qed.

Lemma find_line_set_first (c q : Z) (cs : list line) (x : line) :
  find_line c cs = Some x -> find_line c (set_first c q cs) = Some (mkLine c q).
Proof.
  unfold find_line. induction cs as [|y cs IH]; simpl; [discriminate|].
  destruct (classId y =? c) eqn:E; simpl.
  - intros _. apply Z.eqb_eq in E. rewrite E, Z.eqb_refl. reflexivity.
  - rewrite E. exact IH.
Qed.

End CartFacts.

(** ** C5 *)

(** C5: after any history of cart operations, the cart view consists of
    the session's lines whose product is in the current catalog, each with
    its quantity, and never fails; [knownTotal] is the sum of
    quantity x classPrice over those of them with a price, [totalItems] the
    sum of their quantities, and [hasUnknownPrices] tells whether one of
    them has a null price. Lines of deleted products are left out. *)
Theorem C5_cart_view_recomputed
    (hist : list (list ClassRow.t * Cart.cart_op)) (s0 : Cart.session)
    (catalog : list ClassRow.t) :
  let s := Cart.run hist s0 in
  Cart.cart_view catalog s
  = Ok (Cart.mkView (Cart.drop_nulls (map (Cart.joined catalog) (Cart.cart s)))
                    (Cart.total_items_spec catalog (Cart.cart s))
                    (Cart.known_total_spec catalog (Cart.cart s))
                    (Cart.has_unknown_spec catalog (Cart.cart s))).
Proof. intro s. apply CartFacts.cart_view_spec. Qed.

(** ** C6 *)

(** C6 (counterexample): on a cart holding a line for product 1, a
    quantity update to -1 is rejected and keeps the line, while removing
    the line succeeds. *)
Lemma C6_negative_quantity_is_not_remove :
  Cart.cart_update [box] box_session 1 (-1) = (box_session, Fail 400 "Invalid quantity")
  /\ Cart.cart_remove [box] box_session (Some 1) = (Cart.mkSession [] 0, Ok 0).
Proof. split; reflexivity. Qed.

(** C6 (amended): for every session and quantity, [classId] 0 is
    rejected with 400 and the cart is left unchanged. For a non-zero
    [classId], a negative quantity is rejected with 400 and the cart is
    left unchanged; when the cart has no line for [classId], every
    quantity >= 0 (0 included) fails with 404; when it has one, quantity 0
    is exactly [remove] and a positive quantity overwrites that line's
    quantity. *)
Theorem C6_update_quantity (catalog : list ClassRow.t) (s : Cart.session) (c q : Z) :
  Cart.cart_update catalog s 0 q = (s, Fail 400 "Invalid classId")
  /\ (c <> 0 -> q < 0 -> Cart.cart_update catalog s c q = (s, Fail 400 "Invalid quantity"))
  /\ (c <> 0 -> 0 <= q -> Cart.find_line c (Cart.cart s) = None ->
      Cart.cart_update catalog s c q = (s, Fail 404 "Item not found in cart"))
  /\ (c <> 0 -> Cart.find_line c (Cart.cart s) <> None ->
      Cart.cart_update catalog s c 0 = Cart.cart_remove catalog s (Some c))
  /\ (c <> 0 -> 0 < q -> Cart.find_line c (Cart.cart s) <> None ->
      exists total,
        Cart.cart_update catalog s c q
          = (Cart.mkSession (Cart.set_first c q (Cart.cart s)) total, Ok total)
        /\ Cart.find_line c (Cart.set_first c q (Cart.cart s)) = Some (Cart.mkLine c q)).
Proof.
  split; [reflexivity|].
  unfold Cart.cart_update.
  split; [|split; [|split]].
  - intros Hc Hq. apply Z.eqb_neq in Hc. rewrite Hc.
    apply Z.ltb_lt in Hq. rewrite Hq. reflexivity.
  - intros Hc Hq N. apply Z.eqb_neq in Hc. rewrite Hc.
    apply Z.ltb_ge in Hq. rewrite Hq, N. reflexivity.
  - intros Hc N. apply Z.eqb_neq in Hc. rewrite Hc. simpl.
    destruct (Cart.find_line c (Cart.cart s)) eqn:F; [reflexivity|congruence].
  - intros Hc Hq N. apply Z.eqb_neq in Hc. rewrite Hc.
    assert ((q <? 0) = false) as Q1 by (apply Z.ltb_ge; lia).
    assert ((q =? 0) = false) as Q2 by (apply Z.eqb_neq; lia).
    rewrite Q1.
    destruct (Cart.find_line c (Cart.cart s)) as [x|] eqn:F; [|congruence].
    rewrite Q2. eexists. split; [reflexivity|].
    apply (CartFacts.find_line_set_first c q _ x F).
Qed.

Lemma C6_update_quantity_witness :
  (1 <> 0)
  /\ Cart.cart_update [box] box_session 1 (-1) = (box_session, Fail 400 "Invalid quantity").
Proof.
  split; [lia|].
  apply (proj1 (proj2 (C6_update_quantity [box] box_session 1 (-1)))); lia.
Defined.

(** ** C10 *)

(** C10 (counterexample): [classId] 0 matches no record, and adding it
    is rejected by the [classId] guard. *)
Lemma C10_add_zero_rejected :
  Cart.lookup [box] 0 = None
  /\ Cart.cart_add [box] Cart.empty_session 0
     = (Cart.empty_session, Fail 400 "Invalid classId").
Proof. split; reflexivity. Qed.

(** C10 (amended): for every catalog and session, [classId] 0 is rejected
    with 400 and the cart is left unchanged; adding a non-zero [classId]
    that matches no catalog record succeeds: it appends a line of
    quantity 1 for it (or increments the line already there), and the cart
    view, with its totals, is the same as before the add. *)
Theorem C10_add_unknown_product (catalog : list ClassRow.t) (s : Cart.session) (c : Z) :
  Cart.cart_add catalog s 0 = (s, Fail 400 "Invalid classId")
  /\ (c <> 0 -> Cart.lookup catalog c = None ->
      let cs := match Cart.find_line c (Cart.cart s) with
                | Some _ => Cart.incr_first c (Cart.cart s)
                | None => (Cart.cart s ++ [Cart.mkLine c 1])%list
                end in
      exists total,
        Cart.cart_add catalog s c = (Cart.mkSession cs total, Ok total)
        /\ Cart.cart_view catalog (Cart.mkSession cs total) = Cart.cart_view catalog s).
Proof.
  split; [reflexivity|].
  intros Hc Hmiss cs. unfold Cart.cart_add. apply Z.eqb_neq in Hc. rewrite Hc.
  eexists. split; [reflexivity|].
  rewrite !CartFacts.cart_view_spec. simpl Cart.cart. subst cs.
  destruct (Cart.find_line c (Cart.cart s)).
  - pose proof (CartFacts.joined_incr_missing catalog c (Cart.cart s) Hmiss) as J.
    destruct (CartFacts.specs_of_joined catalog _ _ J) as (T & K & U).
    rewrite J, T, K, U. reflexivity.
  - assert (Cart.lookup catalog (Cart.classId (Cart.mkLine c 1)) = None) as L by exact Hmiss.
    destruct (CartFacts.specs_app_missing catalog (Cart.cart s) _ L) as (T & K & U).
    rewrite map_app. simpl. unfold Cart.joined at 2. simpl. rewrite Hmiss.
    rewrite CartFacts.drop_nulls_app_none, T, K, U. reflexivity.
Qed.

Lemma C10_add_unknown_product_witness :
  (7 <> 0) /\ Cart.lookup [box] 7 = None
  /\ Cart.cart_add [box] box_session 7
     = (Cart.mkSession [Cart.mkLine 1 2; Cart.mkLine 7 1] 20, Ok 20)
  /\ Cart.cart_view [box] (Cart.mkSession [Cart.mkLine 1 2; Cart.mkLine 7 1] 20)
     = Cart.cart_view [box] box_session.
Proof.
  assert (H7 : 7 <> 0) by lia.
  assert (M : Cart.lookup [box] 7 = None) by reflexivity.
  destruct (proj2 (C10_add_unknown_product [box] box_session 7) H7 M) as [total [A V]].
  simpl in A, V. injection A as <-.
  split; [exact H7|]. split; [exact M|]. split; [reflexivity|exact V].
Defined.

(** ** Lemmas on the order ledger *)

Module OrderFacts.
Import Orders.

Lemma insert_order_fresh (db : Database) (r : OrderRow.t) :
  (forall o, In o (orders db) -> OrderRow.order_id o <> OrderRow.order_id r) ->
  insert_order db r = Some (set_orders db (orders db ++ [r])%list (next_order_rowid db + 1)).
Proof.
  intro F. unfold insert_order.
  destruct (existsb _ _) eqn:E; [|reflexivity].
  apply existsb_exists in E as [o [Hin Heq]]. apply Z.eqb_eq in Heq.
  exfalso. exact (F o Hin Heq).
Qed.

Lemma insert_order_taken (db : Database) (r : OrderRow.t) (o : OrderRow.t) :
  In o (orders db) -> OrderRow.order_id o = OrderRow.order_id r -> insert_order db r = None.
Proof.
  intros Hin Heq. unfold insert_order.
  replace (existsb _ _) with true; [reflexivity|].
  symmetry. apply existsb_exists. exists o. split; [exact Hin|]. rewrite Heq. apply Z.eqb_refl.
Qed.

(** What a successful [create_order] did. *)
Lemma create_order_ok (db db1 : Database) (p : OrderPayload) (now : Z) (r : OrderRow.t) :
  create_order db p now = (db1, Ok r) ->
  exists oid, orderId p = Some oid /\ oid <> 0 /\ OrderRow.order_id r = oid
              /\ orders db1 = (orders db ++ [r])%list.
Proof.
  unfold create_order.
  destruct (items p) as [j|]; [destruct j|]; try discriminate.
  destruct (orderId p) as [oid|], (customerInfo p) as [ci|], (knownTotal p) as [kt|];
    try discriminate.
  destruct (oid =? 0) eqn:Z0; [discriminate|]. apply Z.eqb_neq in Z0.
  unfold insert_and_respond, insert_order.
  destruct (existsb _ _); intro H; inversion H; subst.
  exists oid. repeat split; assumption.
Qed.

End OrderFacts.

Module OrderFixtures.

Definition ana : Orders.CustomerInfo := Orders.mkCustomer (Some "Ana") None None None None.

Definition empty_order : Orders.OrderPayload :=
  Orders.mkOrderPayload (Some 1002) (Some ana) (Some (JArr [])) (Some 0) (Some 0) (Some false) None.

Definition empty_order_row : OrderRow.t :=
  OrderRow.mk 1 1002 "Ana" None None None None (JArr []) None 0 0 0 "es" 9.

(** The same order as [empty_order] with [items] left out. *)
Definition order_without_items : Orders.OrderPayload :=
  Orders.mkOrderPayload (Some 1002) (Some ana) None (Some 0) (Some 0) (Some false) None.

End OrderFixtures.

Import OrderFixtures.

(** ** C3 *)

(** C3 (counterexample): an order with [items = []] and the other
    required fields is stored, by both versions of [POST /api/orders]. *)
Lemma C3_empty_items_stored :
  Orders.create_order db0 empty_order 9
    = (set_orders db0 [empty_order_row] 2, Ok empty_order_row)
  /\ Orders.create_order_v1 db0 empty_order 9
    = (set_orders db0 [empty_order_row] 2, Ok empty_order_row).
Proof. split; reflexivity. Qed.

(** C3 (amended): the order routes check only that [items] is an array
    (or present), and that [orderId], [customerInfo] and [knownTotal] are
    present: with those and a fresh [orderId], an empty [items] array is
    stored as the order's snapshot and the order is returned. *)
Theorem C3_empty_items_accepted (db : Database) (p : Orders.OrderPayload) (now : Z)
    (oid kt : Z) (ci : Orders.CustomerInfo)
    (Hi : Orders.items p = Some (JArr []))
    (Ho : Orders.orderId p = Some oid) (Hnz : oid <> 0)
    (Hc : Orders.customerInfo p = Some ci) (Hk : Orders.knownTotal p = Some kt)
    (Hfresh : forall o, In o (orders db) -> OrderRow.order_id o <> oid) :
  (exists r, Orders.create_order db p now
             = (set_orders db (orders db ++ [r])%list (next_order_rowid db + 1), Ok r)
           /\ OrderRow.items r = JArr [])
  /\ (exists r, Orders.create_order_v1 db p now
             = (set_orders db (orders db ++ [r])%list (next_order_rowid db + 1), Ok r)
           /\ OrderRow.items r = JArr []).
Proof.
  assert ((oid =? 0) = false) as Z0 by (apply Z.eqb_neq; exact Hnz).
  split.
  - unfold Orders.create_order. rewrite Hi, Ho, Hc, Hk, Z0.
    unfold Orders.insert_and_respond.
    rewrite OrderFacts.insert_order_fresh by exact Hfresh.
    eexists. split; reflexivity.
  - unfold Orders.create_order_v1. rewrite Hi. simpl. rewrite Ho, Hc, Hk, Z0.
    unfold Orders.insert_and_respond.
    rewrite OrderFacts.insert_order_fresh by exact Hfresh.
    eexists. split; reflexivity.
Qed.

Lemma C3_empty_items_accepted_witness :
  Orders.items empty_order = Some (JArr []) /\ 1002 <> 0
  /\ exists r, Orders.create_order db0 empty_order 9
               = (set_orders db0 (orders db0 ++ [r])%list (next_order_rowid db0 + 1), Ok r)
             /\ OrderRow.items r = JArr [].
Proof.
  split; [reflexivity|]. split; [lia|].
  refine (proj1 (C3_empty_items_accepted db0 empty_order 9 1002 0 ana
                   eq_refl eq_refl _ eq_refl eq_refl _)).
  - lia.
  - intros o Hin. destruct Hin.
Defined.

(** ** Lemmas on repeated order submissions *)

Module DuplicateOrders.
Import Orders.

Ltac reject_400 :=
  do 2 eexists; split; [reflexivity|];
  split; [left; reflexivity|];
  split; [ intros [? E] Hc' Hk'; exfalso; congruence | intros _; reflexivity ].

(** What a stored order of [create_order_v1] is. *)
Lemma v1_stored (db db1 : Database) (p : OrderPayload) (now : Z) (r : OrderRow.t) :
  create_order_v1 db p now = (db1, Ok r) ->
  orderId p = Some (OrderRow.order_id r) /\ OrderRow.order_id r <> 0 /\ In r (orders db1).
Proof.
  unfold create_order_v1. destruct (truthy_json (items p)); [|discriminate]. cbn [negb].
  destruct (orderId p) as [oid|], (customerInfo p) as [ci|], (knownTotal p) as [kt|],
    (items p) as [its|]; try discriminate.
  destruct (oid =? 0) eqn:Z0; [discriminate|]. apply Z.eqb_neq in Z0.
  unfold insert_and_respond, insert_order.
  destruct (existsb _ _); intro H; inversion H; subst.
  cbn [OrderRow.order_id order_row]. split; [reflexivity|]. split; [exact Z0|].
  unfold set_orders. cbn [orders]. apply in_or_app. right. left. reflexivity.
Qed.

(** What a stored order of [create_order] is. *)
Lemma v2_stored (db db1 : Database) (p : OrderPayload) (now : Z) (r : OrderRow.t) :
  create_order db p now = (db1, Ok r) ->
  orderId p = Some (OrderRow.order_id r) /\ OrderRow.order_id r <> 0 /\ In r (orders db1).
Proof.
  intro H. destruct (OrderFacts.create_order_ok _ _ _ _ _ H) as (oid & Ho & Hnz & Hr & Hdb1).
  subst oid. split; [exact Ho|]. split; [exact Hnz|].
  rewrite Hdb1. apply in_or_app. right. left. reflexivity.
Qed.

(** [create_order_v1] on a database holding an order with the same
    [orderId]. *)
Lemma v1_duplicate (db : Database) (p : OrderPayload) (now : Z) (r : OrderRow.t) :
  In r (orders db) -> orderId p = Some (OrderRow.order_id r) -> OrderRow.order_id r <> 0 ->
  exists st m,
    create_order_v1 db p now = (db, Fail st m)
    /\ (st = 400 \/ st = 409)
    /\ ((exists l, items p = Some (JArr l)) -> customerInfo p <> None -> knownTotal p <> None ->
        st = 409 /\ m = "Order with this ID already exists")
    /\ (items p = None \/ customerInfo p = None \/ knownTotal p = None -> st = 400).
Proof.
  intros Hin Hid Hnz. unfold create_order_v1. rewrite Hid.
  destruct (truthy_json (items p)) eqn:T.
  - cbn [negb].
    destruct (customerInfo p) as [ci|] eqn:C, (knownTotal p) as [kt|] eqn:K,
      (items p) as [its|] eqn:I; try reject_400.
    assert ((OrderRow.order_id r =? 0) = false) as Z0 by (apply Z.eqb_neq; exact Hnz).
    rewrite Z0. unfold insert_and_respond.
    rewrite (OrderFacts.insert_order_taken db _ r Hin) by reflexivity.
    do 2 eexists. split; [reflexivity|].
    split; [right; reflexivity|].
    split; [intros; split; reflexivity|].
    intros [E|[E|E]]; discriminate.
  - cbn [negb]. do 2 eexists. split; [reflexivity|].
    split; [left; reflexivity|].
    split; [|intros _; reflexivity].
    intros [l E]. rewrite E in T. discriminate.
Qed.

(** [create_order] on a database holding an order with the same
    [orderId]. *)
Lemma v2_duplicate (db : Database) (p : OrderPayload) (now : Z) (r : OrderRow.t) :
  In r (orders db) -> orderId p = Some (OrderRow.order_id r) -> OrderRow.order_id r <> 0 ->
  exists st m,
    create_order db p now = (db, Fail st m)
    /\ (st = 400 \/ st = 409)
    /\ ((exists l, items p = Some (JArr l)) -> customerInfo p <> None -> knownTotal p <> None ->
        st = 409 /\ m = "Order with this ID already exists")
    /\ (items p = None \/ customerInfo p = None \/ knownTotal p = None -> st = 400).
Proof.
  intros Hin Hid Hnz. unfold create_order. rewrite Hid.
  destruct (items p) as [j|] eqn:I; [destruct j|];
    try (do 2 eexists; split; [reflexivity|];
         split; [left; reflexivity|];
         split; [intros [? E]; discriminate | intros _; reflexivity]).
  destruct (customerInfo p) as [ci|] eqn:C, (knownTotal p) as [kt|] eqn:K; try reject_400.
  assert ((OrderRow.order_id r =? 0) = false) as Z0 by (apply Z.eqb_neq; exact Hnz).
  rewrite Z0. unfold insert_and_respond.
  rewrite (OrderFacts.insert_order_taken db _ r Hin) by reflexivity.
  do 2 eexists. split; [reflexivity|].
  split; [right; reflexivity|].
  split; [intros; split; reflexivity|].
  intros [E|[E|E]]; discriminate.
Qed.

End DuplicateOrders.

(** ** C4 *)

(** C4 (counterexample): after the order [1002] has been stored, a second
    submission with the same [orderId] but no [items] is rejected with
    400 by the input guard of either version of [POST /api/orders], not
    with 409; the stored order is kept. *)
Lemma C4_malformed_duplicate_is_400 :
  Orders.create_order_v1 db0 empty_order 9
    = (set_orders db0 [empty_order_row] 2, Ok empty_order_row)
  /\ Orders.create_order db0 empty_order 9
    = (set_orders db0 [empty_order_row] 2, Ok empty_order_row)
  /\ Orders.orderId order_without_items = Orders.orderId empty_order
  /\ Orders.create_order_v1 (set_orders db0 [empty_order_row] 2) order_without_items 10
    = (set_orders db0 [empty_order_row] 2, Fail 400 "Missing required fields")
  /\ Orders.create_order (set_orders db0 [empty_order_row] 2) order_without_items 10
    = (set_orders db0 [empty_order_row] 2, Fail 400 "Invalid items: must be an array").
Proof. repeat split; reflexivity. Qed.

(** C4 (amended): for either version of [POST /api/orders], once an order
    has been stored, every later submission carrying the same [orderId] is
    rejected and leaves the database, and so the first order, as it was.
    The rejection is 409 ("Order with this ID already exists") when the
    second submission has an [items] array, [customerInfo] and
    [knownTotal]; it is 400 (the input guard) when one of them is
    missing. *)
Theorem C4_second_submission_rejected
    (create : Database -> Orders.OrderPayload -> Z -> Database * response OrderRow.t)
    (Hcreate : create = Orders.create_order_v1 \/ create = Orders.create_order)
    (db db1 : Database) (p1 p2 : Orders.OrderPayload) (now1 now2 : Z) (r1 : OrderRow.t)
    (H1 : create db p1 now1 = (db1, Ok r1))
    (Hid : Orders.orderId p2 = Orders.orderId p1) :
  In r1 (orders db1)
  /\ exists st m,
       create db1 p2 now2 = (db1, Fail st m)
       /\ (st = 400 \/ st = 409)
       /\ ((exists l, Orders.items p2 = Some (JArr l)) ->
           Orders.customerInfo p2 <> None -> Orders.knownTotal p2 <> None ->
           st = 409 /\ m = "Order with this ID already exists")
       /\ (Orders.items p2 = None \/ Orders.customerInfo p2 = None
           \/ Orders.knownTotal p2 = None -> st = 400).
Proof.
  destruct Hcreate as [-> | ->].
  - destruct (DuplicateOrders.v1_stored _ _ _ _ _ H1) as (Ho & Hnz & Hin).
    split; [exact Hin|].
    apply (DuplicateOrders.v1_duplicate db1 p2 now2 r1 Hin); [congruence | exact Hnz].
  - destruct (DuplicateOrders.v2_stored _ _ _ _ _ H1) as (Ho & Hnz & Hin).
    split; [exact Hin|].
    apply (DuplicateOrders.v2_duplicate db1 p2 now2 r1 Hin); [congruence | exact Hnz].
Qed.

Lemma C4_second_submission_rejected_witness :
  Orders.create_order_v1 db0 empty_order 9
    = (set_orders db0 [empty_order_row] 2, Ok empty_order_row)
  /\ Orders.orderId empty_order = Orders.orderId empty_order
  /\ In empty_order_row (orders (set_orders db0 [empty_order_row] 2))
  /\ exists st m,
       Orders.create_order_v1 (set_orders db0 [empty_order_row] 2) empty_order 10
         = (set_orders db0 [empty_order_row] 2, Fail st m)
       /\ st = 409.
Proof.
  assert (H1 : Orders.create_order_v1 db0 empty_order 9
               = (set_orders db0 [empty_order_row] 2, Ok empty_order_row)) by reflexivity.
  split; [exact H1|]. split; [reflexivity|].
  destruct (C4_second_submission_rejected Orders.create_order_v1 (or_introl eq_refl)
              db0 _ empty_order empty_order 9 10 _ H1 eq_refl)
    as [Hin (st & m & R & _ & G & _)].
  split; [exact Hin|].
  exists st, m. split; [exact R|].
  apply G; [exists []; reflexivity | discriminate | discriminate].
Defined.

(** ** Lemmas on the bulk sync engine *)

Module BulkFacts.
Import Bulk.

Definition well_formed (row : body) : bool := truthy_str (p_specialId (parse_row row)).

Lemma special_id_free (db : Database) (sid : string) (except : Z) :
  Sql.class_by_special_id db sid = None -> Sql.special_id_taken db except (Some sid) = false.
Proof.
  intro N. unfold Sql.special_id_taken.
  apply not_true_iff_false. intro E.
  apply existsb_exists in E as [r [Hin Hr]].
  apply andb_true_iff in Hr as [_ Hr].
  pose proof (find_none _ _ N r Hin) as F. simpl in F. congruence.
Qed.

Lemma phase1_skip (rows : list body) :
  forall index k row,
  nth_error rows k = Some row -> well_formed row = false ->
  In (index + Z.of_nat k + 2, "Special ID is required.") (fst (phase1_from index rows)).
Proof.
  induction rows as [|r rows IH]; intros index k row Hk Hbad; [destruct k; discriminate|].
  cbn [phase1_from]. destruct (phase1_from (index + 1) rows) as [sk q] eqn:E.
  destruct k as [|k]; simpl in Hk.
  - injection Hk as ->. unfold well_formed in Hbad. rewrite Hbad. left. f_equal. lia.
  - pose proof (IH (index + 1) k row Hk Hbad) as H. rewrite E in H. simpl in H.
    replace (index + Z.of_nat (S k) + 2) with (index + 1 + Z.of_nat k + 2) by lia.
    destruct (truthy_str _); simpl; [exact H|right; exact H].
Qed.

Lemma phase1_queue (rows : list body) :
  forall index good, In good rows -> well_formed good = true ->
  snd (phase1_from index rows) <> [].
Proof.
  induction rows as [|r rows IH]; intros index good Hin Hgood; [destruct Hin|].
  cbn [phase1_from]. destruct (phase1_from (index + 1) rows) as [sk q] eqn:E.
  destruct (truthy_str (p_specialId (parse_row r))) eqn:T; simpl; [discriminate|].
  destruct Hin as [<-|Hin].
  - unfold well_formed in Hgood. congruence.
  - pose proof (IH (index + 1) good Hin Hgood) as H. rewrite E in H. exact H.
Qed.

Lemma phase1_length (rows : list body) :
  forall index, (List.length (fst (phase1_from index rows))
                 + List.length (snd (phase1_from index rows)))%nat = List.length rows.
Proof.
  induction rows as [|r rows IH]; intro index; [reflexivity|].
  cbn [phase1_from List.length]. pose proof (IH (index + 1)) as H.
  destruct (phase1_from (index + 1) rows) as [sk q].
  destruct (truthy_str _); simpl in *; lia.
Qed.

Lemma apply_row_counts (u : bool) (now : Z) (st : progress) (job : Z * ClassPayload) :
  (List.length (processed (apply_row u now st job))
   + List.length (skipped2 (apply_row u now st job)))%nat
  = S (List.length (processed st) + List.length (skipped2 st)).
Proof.
  destruct job as [index parsed]. unfold apply_row.
  destruct (Sql.class_by_special_id _ _).
  - simpl. rewrite length_app. simpl. lia.
  - destruct u.
    + simpl. rewrite length_app. simpl. lia.
    + destruct (Sql.insert_class _ _ _); simpl; rewrite length_app; simpl; lia.
Qed.

Lemma fold_apply_row_counts (u : bool) (now : Z) (jobs : list (Z * ClassPayload)) :
  forall st,
  (List.length (processed (fold_left (apply_row u now) jobs st))
   + List.length (skipped2 (fold_left (apply_row u now) jobs st)))%nat
  = (List.length jobs + List.length (processed st) + List.length (skipped2 st))%nat.
Proof.
  induction jobs as [|j jobs IH]; intro st; [reflexivity|].
  simpl. rewrite IH. pose proof (apply_row_counts u now st j). simpl. lia.
Qed.

(** When at least one row reaches the lookup, the report is sent, lists
    every malformed row at its spreadsheet position (submitted position
    plus the header row), and accounts for every row once. *)
Lemma bulk_reports_malformed_row (db : Database) (u : bool) (rows : list body) (now : Z)
    (k : nat) (row good : body) :
  nth_error rows k = Some row -> well_formed row = false ->
  In good rows -> well_formed good = true ->
  exists db' rep,
    bulk_upload db u rows now = (db', BulkReport rep)
    /\ In (Z.of_nat k + 1 + 1, "Special ID is required.") (skipped rep)
    /\ processedCount rep + skippedCount rep = Z.of_nat (List.length rows).
Proof.
  intros Hk Hbad Hin Hgood.
  pose proof (phase1_skip rows 0 k row Hk Hbad) as S1.
  pose proof (phase1_queue rows 0 good Hin Hgood) as Q.
  pose proof (phase1_length rows 0) as L.
  unfold bulk_upload, phase1.
  destruct rows as [|r0 rows']; [destruct k; discriminate|].
  destruct (phase1_from 0 (r0 :: rows')) as [sk1 queue] eqn:E. simpl in S1, Q, L.
  destruct queue as [|j queue]; [congruence|].
  do 2 eexists. split; [reflexivity|]. split.
  - simpl. apply in_or_app. left. replace (Z.of_nat k + 1 + 1) with (0 + Z.of_nat k + 2) by lia.
    exact S1.
  - simpl. rewrite length_app, <- Nat2Z.inj_add.
    pose proof (fold_apply_row_counts u now queue (apply_row u now (mkProgress db [] []) j)) as F.
    pose proof (apply_row_counts u now (mkProgress db [] []) j) as A.
    simpl in F, L, A. f_equal. lia.
Qed.

End BulkFacts.

Module BulkFixtures.

(** A sheet row for a product [CR02] that the catalog [db0] lacks. *)
Definition crate_row : body := [("Special ID", "CR02"); ("Class Name", "Crate"); ("Class Price", "7")].

Definition crate : ClassPayload := Bulk.parse_row crate_row.

(** A sheet row whose Special ID cell is empty. *)
Definition blank_row : body := [("Special ID", ""); ("Class Name", "Crate")].

End BulkFixtures.

Import BulkFixtures.

(** ** C7 *)

(** C7 (counterexample): in update-only mode the row for the missing
    [CR02] is skipped, with the reason text
    "Record not found (update only mode).", not
    "record not found (update-only mode)". *)
Lemma C7_skip_reason_text :
  Bulk.apply_row true 5 (Bulk.mkProgress db0 [] []) (0, crate)
    = Bulk.mkProgress db0 [] [(2, "Record not found (update only mode).")]
  /\ "Record not found (update only mode)." <> "record not found (update-only mode)".
Proof. split; [reflexivity|discriminate]. Qed.

(** C7 (amended): for a row whose [specialId] matches no record at its
    lookup, update-only mode appends the skip entry
    [(index + 2, "Record not found (update only mode).")] and leaves the
    database and the processed list as they were; otherwise a record with
    that [specialId] is inserted and the row is counted as processed
    ("created"). *)
Theorem C7_missing_record_row (st : Bulk.progress) (index now : Z) (parsed : ClassPayload)
    (sid : string)
    (Hs : p_specialId parsed = Some sid)
    (Hmiss : Sql.class_by_special_id (Bulk.pdb st) sid = None) :
  Bulk.apply_row true now st (index, parsed)
    = Bulk.mkProgress (Bulk.pdb st) (Bulk.processed st)
        (Bulk.skipped2 st ++ [(index + 2, "Record not found (update only mode).")])%list
  /\ exists r,
       Bulk.apply_row false now st (index, parsed)
         = Bulk.mkProgress
             (set_classes (Bulk.pdb st) (classes (Bulk.pdb st) ++ [r])%list
                (next_class_rowid (Bulk.pdb st) + 1))
             (Bulk.processed st ++ [(parsed, "created")])%list (Bulk.skipped2 st)
       /\ ClassRow.special_id r = Some sid.
Proof.
  unfold Bulk.apply_row. rewrite Hs, Hmiss. split; [reflexivity|].
  unfold Sql.insert_class. simpl Sql.v_special_id.
  rewrite (BulkFacts.special_id_free _ _ _ Hmiss).
  eexists. split; reflexivity.
Qed.

Lemma C7_missing_record_row_witness :
  p_specialId crate = Some "CR02" /\ Sql.class_by_special_id db0 "CR02" = None
  /\ Bulk.apply_row true 5 (Bulk.mkProgress db0 [] []) (0, crate)
     = Bulk.mkProgress db0 [] [(2, "Record not found (update only mode).")].
Proof.
  assert (Hs : p_specialId crate = Some "CR02") by reflexivity.
  assert (Hm : Sql.class_by_special_id (Bulk.pdb (Bulk.mkProgress db0 [] [])) "CR02" = None)
    by reflexivity.
  split; [exact Hs|]. split; [exact Hm|].
  exact (proj1 (C7_missing_record_row (Bulk.mkProgress db0 [] []) 0 5 crate "CR02" Hs Hm)).
Defined.

(** ** C8 *)

(** C8 (failing input): a sheet whose only row has an empty Special ID.
    The row is recorded as skipped at spreadsheet row 2, but no row reaches
    a lookup, [pendingOperations] stays 0, and no callback ever sends the
    report: the request gets no response. *)
Theorem C8_all_malformed_no_report :
  fst (Bulk.phase1 [blank_row]) = [(2, "Special ID is required.")]
  /\ Bulk.bulk_upload db0 false [blank_row] 5 = (db0, Bulk.NoResponse)
  /\ Bulk.bulk_upload db0 true [blank_row] 5 = (db0, Bulk.NoResponse).
Proof. repeat split; reflexivity. Qed.

Example bulk_three_rows :
  snd (Bulk.bulk_upload db0 false [crate_row; blank_row; [("Special ID", "CR01")]] 5)
  = Bulk.BulkReport (Bulk.mkReport 2 1 [(3, "Special ID is required.")]).
Proof. reflexivity. Qed.

(** ** C9 *)

Lemma class_by_id_after_update (cs : list ClassRow.t) (i : Z) (f : ClassRow.t -> ClassRow.t) :
  (forall r, ClassRow.id (f r) = ClassRow.id r) ->
  find (fun r => ClassRow.id r =? i) (map (fun r => if ClassRow.id r =? i then f r else r) cs)
  = option_map f (find (fun r => ClassRow.id r =? i) cs).
Proof.
  intro Hf. induction cs as [|r cs IH]; simpl; [reflexivity|].
  destruct (ClassRow.id r =? i) eqn:E; simpl.
  - rewrite Hf, E. reflexivity.
  - rewrite E. exact IH.
Qed.

Ltac frame_field H := intro H; cbn [ClassRow.special_id ClassRow.main_category ClassRow.quality
  ClassRow.class_name ClassRow.class_name_ar ClassRow.class_name_en ClassRow.class_features
  ClassRow.class_price ClassRow.class_weight ClassRow.class_video Sql.apply_values
  Sql.v_special_id Sql.v_main_category Sql.v_quality Sql.v_class_name Sql.v_class_name_ar
  Sql.v_class_name_en Sql.v_class_features Sql.v_class_price Sql.v_class_weight
  Sql.v_class_video Catalog.put_values parseClassPayload p_specialId p_mainCategory p_quality
  p_className p_classNameArabic p_classNameEnglish p_classFeatures p_classPrice p_classWeight
  p_classVideoUrl]; rewrite H; reflexivity.

(** C9: [PUT /api/classes/:id] fails with 404 and changes nothing when no
    record has the id; otherwise, when it succeeds, the stored record keeps
    its id and creation time, gets [updated_at] = now, and every field
    absent from the request body keeps its prior value (the video also
    needs no uploaded file); the other records are untouched. *)
Theorem C9_partial_update (db : Database) (i : Z) (b : body) (file : option string) (now : Z) :
  (Sql.class_by_id db i = None -> Catalog.classes_put db i b file now = (db, Fail 404 "Class not found"))
  /\ (forall current db' row,
       Sql.class_by_id db i = Some current ->
       Catalog.classes_put db i b file now = (db', Ok row) ->
       Sql.class_by_id db' i = Some row
       /\ ClassRow.id row = ClassRow.id current
       /\ ClassRow.created_at row = ClassRow.created_at current
       /\ ClassRow.updated_at row = now
       /\ (field "specialId" b = None -> ClassRow.special_id row = ClassRow.special_id current)
       /\ (field "mainCategory" b = None -> ClassRow.main_category row = ClassRow.main_category current)
       /\ (field "quality" b = None -> ClassRow.quality row = ClassRow.quality current)
       /\ (field "className" b = None -> ClassRow.class_name row = ClassRow.class_name current)
       /\ (field "classNameArabic" b = None -> ClassRow.class_name_ar row = ClassRow.class_name_ar current)
       /\ (field "classNameEnglish" b = None -> ClassRow.class_name_en row = ClassRow.class_name_en current)
       /\ (field "classFeatures" b = None -> ClassRow.class_features row = ClassRow.class_features current)
       /\ (field "classPrice" b = None -> ClassRow.class_price row = ClassRow.class_price current)
       /\ (field "classWeight" b = None -> ClassRow.class_weight row = ClassRow.class_weight current)
       /\ (field "classVideoUrl" b = None -> file = None ->
           ClassRow.class_video row = ClassRow.class_video current)
       /\ (forall r, In r (classes db) -> ClassRow.id r <> i -> In r (classes db'))).
Proof.
  unfold Catalog.classes_put. split.
  - intro N. rewrite N. reflexivity.
  - intros current db' row Hcur Hput. rewrite Hcur in Hput.
    destruct (Sql.update_class_by_id db i _ now) as [db2|] eqn:U; [|discriminate].
    unfold Sql.update_class_by_id in U.
    destruct (Sql.special_id_taken _ _ _); [discriminate|].
    injection U as <-.
    unfold Sql.class_by_id in Hput |- *. simpl classes in Hput |- *.
    rewrite class_by_id_after_update in Hput by reflexivity.
    unfold Sql.class_by_id in Hcur. rewrite Hcur in Hput. simpl in Hput.
    injection Hput as <- <-.
    cbn [classes set_classes].
    rewrite class_by_id_after_update by reflexivity. rewrite Hcur.
    assert (ClassRow.id current = i) as Hi.
    { apply find_some in Hcur as [_ E]. apply Z.eqb_eq in E. exact E. }
    split; [reflexivity|]. split; [reflexivity|]. split; [reflexivity|]. split; [reflexivity|].
    split; [frame_field H|]. split; [frame_field H|]. split; [frame_field H|].
    split; [frame_field H|]. split; [frame_field H|]. split; [frame_field H|].
    split; [frame_field H|]. split; [frame_field H|]. split; [frame_field H|].
    split.
    + intros H F. cbn [ClassRow.class_video Sql.apply_values Sql.v_class_video
        Catalog.put_values parseClassPayload p_classVideoUrl Catalog.put_video_path].
      rewrite F, H. reflexivity.
    + intros r Hin Hne. simpl. apply in_map_iff. exists r. split; [|exact Hin].
      apply Z.eqb_neq in Hne. rewrite Hne. reflexivity.
Qed.

Lemma C9_partial_update_witness :
  Sql.class_by_id db0 1 = Some box
  /\ field "className" [("classPrice", "12")] = None
  /\ ClassRow.class_name (ClassRow.mk 1 (Some "CR01") "Boxes" "A" "Box" None None None
                           (Some 12) None None 0 5)
     = ClassRow.class_name box.
Proof.
  assert (Hc : Sql.class_by_id db0 1 = Some box) by reflexivity.
  assert (Hf : field "className" [("classPrice", "12")] = None) by reflexivity.
  split; [exact Hc|]. split; [exact Hf|].
  destruct (C9_partial_update db0 1 [("classPrice", "12")] None 5) as [_ Hok].
  destruct (Hok box _ _ Hc eq_refl) as (_ & _ & _ & _ & _ & _ & _ & Hname & _).
  exact (Hname Hf).
Defined.

(** ** The session cart: invariants and composition *)

Module CartMore.
Import Cart Invariants.

Lemma nodupb_spec (l : list Z) : nodupb l = true <-> NoDup l.
Proof.
  induction l as [|x l IH]; simpl.
  - split; intros _; [constructor|reflexivity].
  - rewrite andb_true_iff, negb_true_iff, IH. split.
    + intros [E N]. constructor; [|exact N].
      intro Hin. assert (existsb (Z.eqb x) l = true) as T.
      { apply existsb_exists. exists x. split; [exact Hin|apply Z.eqb_refl]. }
      congruence.
    + intro H. inversion H as [|? ? Hx Hl]; subst. split; [|exact Hl].
      apply not_true_iff_false. intro T. apply existsb_exists in T as [y [Hy E]].
      apply Z.eqb_eq in E. subst. contradiction.
Qed.

Lemma cart_okb_spec (cs : list line) : cart_okb cs = true <-> cart_ok cs.
Proof.
  unfold cart_okb, cart_ok. rewrite andb_true_iff, nodupb_spec, forallb_forall, Forall_forall.
  split; intros [N F]; split; try exact N; intros l Hl.
  - apply Z.ltb_lt, F, Hl.
  - apply Z.ltb_lt, F, Hl.
Qed.

Lemma map_classId_incr (c : Z) (cs : list line) :
  map classId (incr_first c cs) = map classId cs.
Proof.
  induction cs as [|x cs IH]; simpl; [reflexivity|].
  destruct (classId x =? c); simpl; [reflexivity|]. rewrite IH. reflexivity.
Qed.

Lemma map_classId_set (c q : Z) (cs : list line) :
  map classId (set_first c q cs) = map classId cs.
Proof.
  induction cs as [|x cs IH]; simpl; [reflexivity|].
  destruct (classId x =? c); simpl; [reflexivity|]. rewrite IH. reflexivity.
Qed.

Lemma positive_incr (c : Z) (cs : list line) :
  Forall (fun l => 0 < quantity l) cs -> Forall (fun l => 0 < quantity l) (incr_first c cs).
Proof.
  induction 1 as [|x cs Hx Hcs IH]; simpl; [constructor|].
  destruct (classId x =? c); constructor; simpl; try lia; assumption.
Qed.

Lemma positive_set (c q : Z) (cs : list line) :
  0 < q -> Forall (fun l => 0 < quantity l) cs -> Forall (fun l => 0 < quantity l) (set_first c q cs).
Proof.
  intro Hq. induction 1 as [|x cs Hx Hcs IH]; simpl; [constructor|].
  destruct (classId x =? c); constructor; simpl; assumption.
Qed.

Lemma drop_lines_ok (c : Z) (cs : list line) : cart_ok cs -> cart_ok (drop_lines c cs).
Proof.
  unfold cart_ok, drop_lines. intros [N F]. split.
  - induction cs as [|x cs IH]; simpl; [constructor|].
    inversion N as [|? ? Hx Hn]; subst. inversion F; subst.
    destruct (negb _); simpl; [|apply IH; assumption].
    constructor; [|apply IH; assumption].
    intro Hin. apply in_map_iff in Hin as [y [Hy Hin]]. apply filter_In in Hin as [Hin _].
    apply Hx. rewrite <- Hy. apply in_map. exact Hin.
  - apply Forall_forall. intros l Hl. apply filter_In in Hl as [Hl _].
    rewrite Forall_forall in F. apply F, Hl.
Qed.

Lemma find_line_none (c : Z) (cs : list line) :
  find_line c cs = None -> ~ In c (map classId cs).
Proof.
  intros N Hin. apply in_map_iff in Hin as [x [Hx Hin]].
  pose proof (find_none _ _ N x Hin) as F. simpl in F. rewrite Hx, Z.eqb_refl in F. discriminate.
Qed.

Lemma nodup_snoc (l : list Z) (c : Z) : NoDup l -> ~ In c l -> NoDup (l ++ [c])%list.
Proof.
  induction 1 as [|x l Hx Hl IH]; intro Hc; simpl.
  - constructor; [intros []|constructor].
  - constructor.
    + intro H. apply in_app_or in H as [H|[H|[]]]; [contradiction|].
      apply Hc. left. symmetry. exact H.
    + apply IH. intro H. apply Hc. right. exact H.
Qed.

Lemma step_ok (catalog : list ClassRow.t) (s : session) (op : cart_op) :
  cart_ok (cart s) -> cart_ok (cart (step catalog s op)).
Proof.
  intros [N F]. destruct op as [c|c q|[c|]|]; simpl.
  - unfold cart_add. destruct (c =? 0); [split; assumption|]. simpl.
    destruct (find_line c (cart s)) eqn:L.
    + split; [rewrite map_classId_incr; exact N|apply positive_incr, F].
    + split.
      * rewrite map_app. apply nodup_snoc; [exact N|apply find_line_none, L].
      * apply Forall_app. split; [exact F|]. constructor; [simpl; lia|constructor].
  - unfold cart_update. destruct (c =? 0); [split; assumption|].
    destruct (q <? 0) eqn:Q; [split; assumption|]. apply Z.ltb_ge in Q.
    destruct (find_line c (cart s)); [|split; assumption]. simpl.
    destruct (q =? 0) eqn:Q0.
    + apply drop_lines_ok. split; assumption.
    + apply Z.eqb_neq in Q0. split; [rewrite map_classId_set; exact N|].
      apply positive_set; [lia|exact F].
  - apply drop_lines_ok. split; assumption.
  - split; assumption.
  - split; constructor.
Qed.

Lemma run_ok (hist : list (list ClassRow.t * cart_op)) :
  forall s, cart_ok (cart s) -> cart_ok (cart (run hist s)).
Proof.
  induction hist as [|[catalog op] hist IH]; intros s H; simpl; [exact H|].
  apply IH, step_ok, H.
Qed.

(** [calculateCartTotal] is the known total of the lines joined with the
    catalog. *)
Lemma calculateCartTotal_spec (catalog : list ClassRow.t) (s : session) :
  calculateCartTotal catalog s = known_total_spec catalog (cart s).
Proof.
  unfold calculateCartTotal. destruct (cart s) as [|l0 cs0] eqn:E; [reflexivity|].
  set (ids := map classId (l0 :: cs0)).
  assert (forall cs acc, (forall x, In x cs -> In (classId x) ids) ->
            fold_left (fun total item =>
              match find_product (select_in catalog ids) (classId item) with
              | Some p => match ClassRow.class_price p with
                          | Some price => total + price * quantity item
                          | None => total
                          end
              | None => total
              end) cs acc = acc + known_total_spec catalog cs) as G.
  { induction cs as [|x cs IH]; intros acc Hin; simpl; [ring|].
    rewrite CartFacts.find_select_in by (apply Hin; left; reflexivity).
    rewrite IH by (intros y Hy; apply Hin; right; exact Hy).
    destruct (lookup catalog (classId x)) as [p|]; [|ring].
    destruct (ClassRow.class_price p); ring. }
  apply G. intros x Hx. apply in_map. exact Hx.
Qed.

Lemma total_agrees_ok (catalog : list ClassRow.t) (s : session) (cs : list line) (old : Z) :
  cached_total_agrees catalog s
    (mkSession cs (calculateCartTotal catalog (mkSession cs old)),
     Ok (calculateCartTotal catalog (mkSession cs old))).
Proof.
  simpl. split; [reflexivity|].
  eexists. rewrite CartFacts.cart_view_spec. split; [reflexivity|].
  simpl. symmetry. apply calculateCartTotal_spec.
Qed.

Lemma drop_lines_absent (c : Z) (cs : list line) :
  find_line c cs = None -> drop_lines c cs = cs.
Proof.
  unfold find_line, drop_lines. induction cs as [|x cs IH]; simpl; [reflexivity|].
  destruct (classId x =? c); simpl; [discriminate|]. intro N. rewrite IH by exact N. reflexivity.
Qed.

Lemma find_line_snoc (c q : Z) (cs : list line) :
  find_line c cs = None -> find_line c (cs ++ [mkLine c q])%list = Some (mkLine c q).
Proof.
  unfold find_line. induction cs as [|x cs IH]; simpl.
  - rewrite Z.eqb_refl. reflexivity.
  - destruct (classId x =? c); [discriminate|exact IH].
Qed.

Lemma incr_first_snoc (c q : Z) (cs : list line) :
  find_line c cs = None -> incr_first c (cs ++ [mkLine c q])%list = (cs ++ [mkLine c (q + 1)])%list.
Proof.
  unfold find_line. induction cs as [|x cs IH]; simpl.
  - rewrite Z.eqb_refl. reflexivity.
  - destruct (classId x =? c); [discriminate|]. intro N. rewrite IH by exact N. reflexivity.
Qed.

Lemma run_app (h1 h2 : list (list ClassRow.t * cart_op)) (s : session) :
  run (h1 ++ h2) s = run h2 (run h1 s).
Proof.
  revert s. induction h1 as [|[catalog op] h1 IH]; intro s; simpl; [reflexivity|]. apply IH.
Qed.

Lemma run_adds_snoc (c : Z) (cs : list line) (cats : list (list ClassRow.t)) :
  (c =? 0) = false -> find_line c cs = None ->
  forall k t, cart (run (map (fun cat => (cat, OpAdd c)) cats) (mkSession (cs ++ [mkLine c k])%list t))
  = (cs ++ [mkLine c (k + Z.of_nat (List.length cats))])%list.
Proof.
  intros Hc N. induction cats as [|cat cats IH]; intros k t.
  - simpl. rewrite Z.add_0_r. reflexivity.
  - cbn [map run step]. unfold cart_add. rewrite Hc. cbn [cart].
    rewrite find_line_snoc by exact N. rewrite incr_first_snoc by exact N.
    cbn [fst]. rewrite IH. f_equal. f_equal. f_equal. cbn [List.length]. lia.
Qed.

End CartMore.

(** X1: Every history of cart operations keeps the cart well formed: one line
    per [classId], each with a positive quantity. *)
Theorem cart_run_keeps_lines_well_formed (hist : list (list ClassRow.t * Cart.cart_op))
    (s : Cart.session) :
  Invariants.cart_okb (Cart.cart s) = true ->
  Invariants.cart_okb (Cart.cart (Cart.run hist s)) = true.
Proof.
  rewrite !CartMore.cart_okb_spec. apply CartMore.run_ok.
Qed.

Lemma cart_run_keeps_lines_well_formed_witness :
  Invariants.cart_okb (Cart.cart Cart.empty_session) = true
  /\ Invariants.cart_okb (Cart.cart (Cart.run
       [([box], Cart.OpAdd 1); ([box], Cart.OpAdd 1); ([box], Cart.OpAdd 7);
        ([box], Cart.OpUpdate 1 0); ([box], Cart.OpUpdate 7 (-3))] Cart.empty_session)) = true.
Proof.
  assert (H : Invariants.cart_okb (Cart.cart Cart.empty_session) = true) by reflexivity.
  split; [exact H|]. exact (cart_run_keeps_lines_well_formed _ _ H).
Defined.

(** X2: Each cart route either rejects the request with the session left as
    it was, or caches as [cartTotal] and answers the total that
    [GET /api/cart] reports as [knownTotal] in the same catalog. *)
Theorem cart_cached_total_matches_view (catalog : list ClassRow.t) (s : Cart.session) :
  (forall c, Invariants.cached_total_agrees catalog s (Cart.cart_add catalog s c))
  /\ (forall c q, Invariants.cached_total_agrees catalog s (Cart.cart_update catalog s c q))
  /\ (forall c, Invariants.cached_total_agrees catalog s (Cart.cart_remove catalog s c)).
Proof.
  split; [|split].
  - intro c. unfold Cart.cart_add. destruct (c =? 0); [reflexivity|].
    apply CartMore.total_agrees_ok.
  - intros c q. unfold Cart.cart_update. destruct (c =? 0); [reflexivity|].
    destruct (q <? 0); [reflexivity|].
    destruct (Cart.find_line c (Cart.cart s)); [|reflexivity].
    apply CartMore.total_agrees_ok.
  - intros [c|]; [|reflexivity]. apply CartMore.total_agrees_ok.
Qed.

(** X3: Removing a product that an add has just put into a cart where it was
    absent gives back the cart's lines, and the total of those lines. *)
Theorem cart_add_then_remove (catalog catalog' : list ClassRow.t) (s : Cart.session) (c : Z) :
  c <> 0 -> Cart.find_line c (Cart.cart s) = None ->
  fst (Cart.cart_remove catalog' (fst (Cart.cart_add catalog s c)) (Some c))
  = Cart.mkSession (Cart.cart s) (Cart.calculateCartTotal catalog' s).
Proof.
  intros Hc N. unfold Cart.cart_add. apply Z.eqb_neq in Hc. rewrite Hc, N. simpl.
  assert (Cart.drop_lines c (Cart.cart s ++ [Cart.mkLine c 1])%list = Cart.cart s) as D.
  { unfold Cart.drop_lines. rewrite filter_app. simpl. rewrite Z.eqb_refl. simpl.
    rewrite app_nil_r. apply CartMore.drop_lines_absent, N. }
  rewrite D. unfold Cart.calculateCartTotal. reflexivity.
Qed.

Lemma cart_add_then_remove_witness :
  (7 <> 0 /\ Cart.find_line 7 (Cart.cart Fixtures.box_session) = None)
  /\ fst (Cart.cart_remove [box] (fst (Cart.cart_add [box] Fixtures.box_session 7)) (Some 7))
     = Cart.mkSession [Cart.mkLine 1 2] 20.
Proof.
  assert (H1 : 7 <> 0) by lia.
  assert (H2 : Cart.find_line 7 (Cart.cart Fixtures.box_session) = None) by reflexivity.
  split; [split; assumption|].
  rewrite (cart_add_then_remove [box] [box] Fixtures.box_session 7 H1 H2). reflexivity.
Defined.

(** X4: Adding the same product [n] times (in any catalogs) to a cart without
    it appends one line for it with quantity [n]. *)
Theorem cart_repeated_add (cats : list (list ClassRow.t)) (s : Cart.session) (c : Z) :
  c <> 0 -> Cart.find_line c (Cart.cart s) = None -> (0 < List.length cats)%nat ->
  Cart.cart (Cart.run (map (fun cat => (cat, Cart.OpAdd c)) cats) s)
  = (Cart.cart s ++ [Cart.mkLine c (Z.of_nat (List.length cats))])%list.
Proof.
  intros Hc N Hlen. apply Z.eqb_neq in Hc.
  destruct cats as [|cat cats]; [simpl in Hlen; lia|].
  cbn [map Cart.run Cart.step]. unfold Cart.cart_add at 1. rewrite Hc, N. cbn [fst Cart.cart].
  rewrite CartMore.run_adds_snoc by assumption. simpl List.length. repeat f_equal. lia.
Qed.

Lemma cart_repeated_add_witness :
  (7 <> 0 /\ Cart.find_line 7 (Cart.cart Fixtures.box_session) = None
   /\ (0 < List.length [[box]; []; [box]])%nat)
  /\ Cart.cart (Cart.run (map (fun cat => (cat, Cart.OpAdd 7)) [[box]; []; [box]])
                 Fixtures.box_session)
     = [Cart.mkLine 1 2; Cart.mkLine 7 3].
Proof.
  assert (H1 : 7 <> 0) by lia.
  assert (H2 : Cart.find_line 7 (Cart.cart Fixtures.box_session) = None) by reflexivity.
  assert (H3 : (0 < List.length [[box]; []; [box]])%nat) by (simpl; lia).
  split; [split; [|split]; assumption|].
  rewrite (cart_repeated_add _ _ 7 H1 H2 H3). reflexivity.
Defined.

(** ** The order ledger: lookups and deletions *)

Module OrderMore.
Import Orders OrderRoutes.

Lemma find_app_fresh (os : list OrderRow.t) (r : OrderRow.t) (oid : Z) :
  existsb (fun o => OrderRow.order_id o =? oid) os = false -> OrderRow.order_id r = oid ->
  find (fun o => OrderRow.order_id o =? oid) (os ++ [r])%list = Some r.
Proof.
  intros E Hr. induction os as [|o os IH]; simpl in *.
  - rewrite Hr, Z.eqb_refl. reflexivity.
  - apply orb_false_iff in E as [E1 E2]. rewrite E1. apply IH, E2.
Qed.

Lemma or_empty_or_null (x : option string) : or_empty (or_null x) = or_empty x.
Proof.
  destruct x as [v|]; [|reflexivity]. unfold or_null, truthy_str.
  destruct (String.eqb v "") eqn:E; [|reflexivity]. apply String.eqb_eq in E. subst. reflexivity.
Qed.

Lemma language_default (l : option string) :
  or_default (Some (or_default l "es")) "es" = or_default l "es".
Proof.
  destruct l as [v|]; [|reflexivity]. unfold or_default.
  destruct (String.eqb v "") eqn:E; [reflexivity|]. rewrite E. reflexivity.
Qed.

Lemma filter_length_eq {A : Type} (f : A -> bool) (l : list A) :
  List.length (filter f l) = List.length l <-> forallb f l = true.
Proof.
  induction l as [|x l IH]; simpl; [tauto|].
  pose proof (filter_length_le f l) as L.
  destruct (f x); simpl.
  - rewrite <- IH. split; intro H; lia.
  - split; intro H; [lia|discriminate].
Qed.

Lemma delete_order_spec (db : Database) (oid : Z) :
  (existsb (fun o => OrderRow.order_id o =? oid) (orders db) = false
   /\ delete_order db oid = (db, Fail 404 "Order not found"))
  \/ (existsb (fun o => OrderRow.order_id o =? oid) (orders db) = true
      /\ delete_order db oid
         = (set_orders db (filter (fun o => negb (OrderRow.order_id o =? oid)) (orders db))
                       (next_order_rowid db), Ok tt)).
Proof.
  unfold delete_order.
  destruct (Nat.eqb_spec (List.length (filter (fun o => negb (OrderRow.order_id o =? oid)) (orders db)))
                         (List.length (orders db))) as [L|L].
  - left. split; [|reflexivity].
    apply filter_length_eq in L. apply not_true_iff_false. intro E.
    apply existsb_exists in E as [o [Hin Ho]]. rewrite forallb_forall in L.
    specialize (L o Hin). rewrite Ho in L. discriminate.
  - right. split; [|reflexivity].
    apply not_false_iff_true. intro E. apply L, filter_length_eq, forallb_forall.
    intros o Hin. apply negb_true_iff, not_true_iff_false. intro Ho.
    assert (existsb (fun o => OrderRow.order_id o =? oid) (orders db) = true) as T.
    { apply existsb_exists. exists o. split; assumption. }
    congruence.
Qed.

(** What a successful [create_order_v1] did. *)
Lemma create_order_v1_ok (db db1 : Database) (p : OrderPayload) (now : Z) (r : OrderRow.t) :
  create_order_v1 db p now = (db1, Ok r) ->
  exists oid ci its kt,
    truthy_json (items p) = true
    /\ orderId p = Some oid /\ customerInfo p = Some ci /\ items p = Some its
    /\ knownTotal p = Some kt /\ oid <> 0
    /\ existsb (fun o => OrderRow.order_id o =? oid) (orders db) = false
    /\ r = order_row db oid ci its kt p false now
    /\ db1 = set_orders db (orders db ++ [r])%list (next_order_rowid db + 1).
Proof.
  unfold create_order_v1. destruct (truthy_json (items p)) eqn:T; [|discriminate]. simpl.
  destruct (orderId p) as [oid|], (customerInfo p) as [ci|], (knownTotal p) as [kt|],
    (items p) as [its|]; try discriminate.
  destruct (oid =? 0) eqn:Z0; [discriminate|]. apply Z.eqb_neq in Z0.
  unfold insert_and_respond, insert_order. cbn [OrderRow.order_id order_row].
  destruct (existsb _ _) eqn:E; [discriminate|]. intro H. injection H as <- <-.
  exists oid, ci, its, kt. repeat split; try reflexivity; assumption.
Qed.

End OrderMore.

(** X5: An order created through [POST /api/orders] is read back by
    [GET /api/orders/:orderId] with the submitted items, totals, flag and
    language, its customer fields defaulting to the empty string and its
    language to ["es"]. *)
Theorem order_create_then_get (db db1 : Database) (p : Orders.OrderPayload) (now : Z)
    (r : OrderRow.t) :
  Orders.create_order_v1 db p now = (db1, Ok r) ->
  exists oid ci its kt,
    Orders.orderId p = Some oid /\ Orders.customerInfo p = Some ci
    /\ Orders.items p = Some its /\ Orders.knownTotal p = Some kt
    /\ OrderRoutes.get_order db1 oid
       = Ok (OrderRoutes.mkOrderView (next_order_rowid db) oid
               (or_default (Orders.fullName ci) "")
               (OrderRoutes.or_empty (Orders.company ci))
               (OrderRoutes.or_empty (Orders.phone ci))
               (OrderRoutes.or_empty (Orders.salesPerson ci))
               (OrderRoutes.or_empty (Orders.notes ci))
               its kt (if_defined (Orders.totalItems p) 0)
               (match Orders.hasUnknownPrices p with Some true => true | _ => false end)
               (or_default (Orders.language p) "es") now).
Proof.
  intro H. apply OrderMore.create_order_v1_ok in H
    as (oid & ci & its & kt & _ & Hid & Hci & Hits & Hkt & _ & E & -> & ->).
  exists oid, ci, its, kt. repeat split; try assumption.
  unfold OrderRoutes.get_order. cbn [orders set_orders].
  rewrite OrderMore.find_app_fresh by (exact E || reflexivity).
  unfold OrderRoutes.order_response, Orders.order_row. cbn -[or_default or_null].
  rewrite !OrderMore.or_empty_or_null, OrderMore.language_default.
  f_equal. f_equal. destruct (Orders.hasUnknownPrices p) as [[|]|]; reflexivity.
Qed.

Lemma order_create_then_get_witness :
  Orders.create_order_v1 db0 OrderFixtures.empty_order 7
  = (fst (Orders.create_order_v1 db0 OrderFixtures.empty_order 7),
     Ok (Orders.order_row db0 1002 OrderFixtures.ana (JArr []) 0 OrderFixtures.empty_order false 7))
  /\ exists oid ci its kt,
       Orders.orderId OrderFixtures.empty_order = Some oid
       /\ Orders.customerInfo OrderFixtures.empty_order = Some ci
       /\ Orders.items OrderFixtures.empty_order = Some its
       /\ Orders.knownTotal OrderFixtures.empty_order = Some kt
       /\ OrderRoutes.get_order (fst (Orders.create_order_v1 db0 OrderFixtures.empty_order 7)) oid
          = Ok (OrderRoutes.mkOrderView 1 oid
                  (or_default (Orders.fullName ci) "")
                  (OrderRoutes.or_empty (Orders.company ci))
                  (OrderRoutes.or_empty (Orders.phone ci))
                  (OrderRoutes.or_empty (Orders.salesPerson ci))
                  (OrderRoutes.or_empty (Orders.notes ci))
                  its kt (if_defined (Orders.totalItems OrderFixtures.empty_order) 0)
                  (match Orders.hasUnknownPrices OrderFixtures.empty_order with
                   | Some true => true | _ => false end)
                  (or_default (Orders.language OrderFixtures.empty_order) "es") 7).
Proof.
  assert (H : Orders.create_order_v1 db0 OrderFixtures.empty_order 7
    = (fst (Orders.create_order_v1 db0 OrderFixtures.empty_order 7),
       Ok (Orders.order_row db0 1002 OrderFixtures.ana (JArr []) 0 OrderFixtures.empty_order false 7)))
    by reflexivity.
  split; [exact H|]. exact (order_create_then_get _ _ _ _ _ H).
Defined.

(** X6: [DELETE /api/orders/:orderId] answers 404 and changes nothing when no
    order has the id; otherwise it removes exactly the orders with that
    id, and a later [GET] of the id answers 404. The catalog is not
    touched. *)
Theorem order_delete_then_get (db : Database) (oid : Z) :
  OrderRoutes.get_order (fst (OrderRoutes.delete_order db oid)) oid = Fail 404 "Order not found"
  /\ (snd (OrderRoutes.delete_order db oid) = Ok tt
       <-> exists o, In o (orders db) /\ OrderRow.order_id o = oid)
  /\ (snd (OrderRoutes.delete_order db oid) = Fail 404 "Order not found"
       -> fst (OrderRoutes.delete_order db oid) = db)
  /\ (forall o, In o (orders (fst (OrderRoutes.delete_order db oid)))
                 <-> In o (orders db) /\ OrderRow.order_id o <> oid)
  /\ classes (fst (OrderRoutes.delete_order db oid)) = classes db.
Proof.
  destruct (OrderMore.delete_order_spec db oid) as [[E ->]|[E ->]]; cbn [fst snd].
  - assert (forall o, In o (orders db) -> OrderRow.order_id o <> oid) as F.
    { intros o Hin Ho. assert (existsb (fun o => OrderRow.order_id o =? oid) (orders db) = true).
      { apply existsb_exists. exists o. split; [exact Hin|]. apply Z.eqb_eq, Ho. }
      congruence. }
    split.
    + unfold OrderRoutes.get_order. destruct (find _ _) eqn:Fd; [|reflexivity].
      apply find_some in Fd as [Hin Ho]. apply Z.eqb_eq in Ho. exfalso. exact (F _ Hin Ho).
    + split; [split; [discriminate|intros [o [Hin Ho]]; exfalso; exact (F _ Hin Ho)]|].
      split; [reflexivity|]. split; [|reflexivity].
      intro o. split; [intro Hin; split; [exact Hin|exact (F _ Hin)]|tauto].
  - split.
    + unfold OrderRoutes.get_order. cbn [orders set_orders].
      destruct (find _ _) eqn:Fd; [|reflexivity].
      apply find_some in Fd as [Hin Ho]. apply filter_In in Hin as [_ Hn].
      rewrite Ho in Hn. discriminate.
    + split; [split; [intros _|reflexivity]|].
      { apply existsb_exists in E as [o [Hin Ho]]. exists o. split; [exact Hin|]. apply Z.eqb_eq, Ho. }
      split; [discriminate|]. split; [|reflexivity].
      intro o. cbn [orders set_orders]. rewrite filter_In, negb_true_iff, Z.eqb_neq. tauto.
Qed.

(** X7: Once an order is deleted its [orderId] can be used again: the same
    [POST /api/orders] request succeeds, and the new order gets the next
    rowid (AUTOINCREMENT does not reuse the deleted one). *)
Theorem order_recreate_after_delete (db db1 : Database) (p : Orders.OrderPayload) (now now' : Z)
    (r : OrderRow.t) :
  Orders.create_order_v1 db p now = (db1, Ok r) ->
  exists db3 r',
    Orders.create_order_v1 (fst (OrderRoutes.delete_order db1 (OrderRow.order_id r))) p now'
    = (db3, Ok r')
    /\ OrderRow.order_id r' = OrderRow.order_id r
    /\ OrderRow.id r' = OrderRow.id r + 1.
Proof.
  intro H. apply OrderMore.create_order_v1_ok in H
    as (oid & ci & its & kt & T & Hid & Hci & Hits & Hkt & Hz & E & -> & ->).
  cbn [Orders.order_row OrderRow.order_id OrderRow.id].
  destruct (OrderMore.delete_order_spec
              (set_orders db (orders db ++ [Orders.order_row db oid ci its kt p false now])%list
                          (next_order_rowid db + 1)) oid) as [[E2 _]|[_ ->]].
  - exfalso. cbn [orders set_orders] in E2. rewrite existsb_app in E2. simpl in E2.
    rewrite Z.eqb_refl, orb_true_r in E2. discriminate.
  - cbn [fst]. unfold Orders.create_order_v1. rewrite T, Hid, Hci, Hkt, Hits. cbn [negb].
    apply Z.eqb_neq in Hz. rewrite Hz.
    unfold Orders.insert_and_respond, Orders.insert_order.
    cbn [orders set_orders next_order_rowid Orders.order_row OrderRow.order_id].
    replace (existsb _ _) with false.
    + do 2 eexists. split; [reflexivity|]. cbn [OrderRow.order_id OrderRow.id]. split; reflexivity.
    + symmetry. apply not_true_iff_false. intro X. apply existsb_exists in X as [o [Hin Ho]].
      apply filter_In in Hin as [_ Hn]. rewrite Ho in Hn. discriminate.
Qed.

Lemma order_recreate_after_delete_witness :
  Orders.create_order_v1 db0 OrderFixtures.empty_order 7
  = (fst (Orders.create_order_v1 db0 OrderFixtures.empty_order 7),
     Ok (Orders.order_row db0 1002 OrderFixtures.ana (JArr []) 0 OrderFixtures.empty_order false 7))
  /\ exists db3 r',
       Orders.create_order_v1
         (fst (OrderRoutes.delete_order (fst (Orders.create_order_v1 db0 OrderFixtures.empty_order 7))
                 1002)) OrderFixtures.empty_order 9
       = (db3, Ok r')
       /\ OrderRow.order_id r' = 1002 /\ OrderRow.id r' = 1 + 1.
Proof.
  assert (H : Orders.create_order_v1 db0 OrderFixtures.empty_order 7
    = (fst (Orders.create_order_v1 db0 OrderFixtures.empty_order 7),
       Ok (Orders.order_row db0 1002 OrderFixtures.ana (JArr []) 0 OrderFixtures.empty_order false 7)))
    by reflexivity.
  split; [exact H|]. exact (order_recreate_after_delete _ _ _ _ 9 _ H).
Defined.

Module FrameFacts.
Import Bulk.

Lemma update_class_by_id_orders (db db' : Database) (i : Z) (v : Sql.class_values) (now : Z) :
  Sql.update_class_by_id db i v now = Some db' -> orders db' = orders db.
Proof.
  unfold Sql.update_class_by_id. destruct (Sql.special_id_taken _ _ _); [discriminate|].
  intro H. injection H as <-. reflexivity.
Qed.

Lemma insert_class_orders (db db' : Database) (v : Sql.class_values) (now : Z) :
  Sql.insert_class db v now = Some db' -> orders db' = orders db.
Proof.
  unfold Sql.insert_class. destruct (Sql.special_id_taken _ _ _); [discriminate|].
  intro H. injection H as <-. reflexivity.
Qed.

Lemma fold_apply_row_orders (u : bool) (now : Z) (jobs : list (Z * ClassPayload)) :
  forall st, orders (pdb (fold_left (apply_row u now) jobs st)) = orders (pdb st).
Proof.
  induction jobs as [|[index parsed] jobs IH]; intro st; [reflexivity|].
  simpl. rewrite IH. unfold apply_row.
  destruct (Sql.class_by_special_id _ _); [reflexivity|].
  destruct u; [reflexivity|].
  destruct (Sql.insert_class _ _ _) eqn:I; [|reflexivity].
  apply insert_class_orders in I. exact I.
Qed.

End FrameFacts.

(** X8: The catalog routes never change the order ledger, and the order
    routes never change the catalog: an order keeps the prices it was
    created with whatever happens to the records it lists. *)
Theorem catalog_and_ledger_independent (db : Database) :
  (forall i b file now, orders (fst (Catalog.classes_put db i b file now)) = orders db)
  /\ (forall b file gen now, orders (fst (CatalogMore.classes_post db b file gen now)) = orders db)
  /\ (forall i, orders (fst (Catalog.classes_delete db i)) = orders db)
  /\ orders (fst (CatalogMore.classes_purge db)) = orders db
  /\ (forall u rows now, orders (fst (Bulk.bulk_upload db u rows now)) = orders db)
  /\ (forall p now, classes (fst (Orders.create_order db p now)) = classes db
                    /\ classes (fst (Orders.create_order_v1 db p now)) = classes db)
  /\ (forall oid, classes (fst (OrderRoutes.delete_order db oid)) = classes db).
Proof.
  split; [|split; [|split; [|split; [|split; [|split]]]]].
  - intros i b file now. unfold Catalog.classes_put.
    destruct (Sql.class_by_id db i) as [current|]; [|reflexivity].
    destruct (Sql.update_class_by_id _ _ _ _) as [db'|] eqn:U; [|reflexivity].
    apply FrameFacts.update_class_by_id_orders in U.
    destruct (Sql.class_by_id db' i); exact U.
  - intros b file gen now. unfold CatalogMore.classes_post.
    destruct (negb _); [reflexivity|].
    destruct (Sql.insert_class _ _ _) as [db'|] eqn:I; [|reflexivity].
    apply FrameFacts.insert_class_orders in I.
    destruct (Sql.class_by_id db' _); exact I.
  - intro i. unfold Catalog.classes_delete. destruct (Sql.class_by_id db i); reflexivity.
  - reflexivity.
  - intros u rows now. unfold Bulk.bulk_upload. destruct rows as [|row rows]; [reflexivity|].
    destruct (Bulk.phase1 _) as [sk1 queue]. destruct queue as [|j queue]; [reflexivity|].
    cbn [fst]. apply FrameFacts.fold_apply_row_orders.
  - intros p now. split.
    + unfold Orders.create_order.
      destruct (Orders.items p) as [[]|]; try reflexivity.
      destruct (Orders.orderId p), (Orders.customerInfo p), (Orders.knownTotal p); try reflexivity.
      destruct (_ =? 0); [reflexivity|]. unfold Orders.insert_and_respond, Orders.insert_order.
      destruct (existsb _ _); reflexivity.
    + unfold Orders.create_order_v1. destruct (negb _); [reflexivity|].
      destruct (Orders.orderId p), (Orders.customerInfo p), (Orders.knownTotal p), (Orders.items p);
        try reflexivity.
      destruct (_ =? 0); [reflexivity|]. unfold Orders.insert_and_respond, Orders.insert_order.
      destruct (existsb _ _); reflexivity.
  - intro oid. destruct (OrderMore.delete_order_spec db oid) as [[_ ->]|[_ ->]]; reflexivity.
Qed.

(** ** The catalog invariant *)

Module CatalogFacts.
Import Invariants.

Lemma opt_str_eqb_eq (a b : option string) : opt_str_eqb a b = true <-> a = b.
Proof.
  destruct a as [x|], b as [y|]; simpl; split; intro H; try discriminate; try reflexivity.
  - apply String.eqb_eq in H. subst. reflexivity.
  - injection H as ->. apply String.eqb_refl.
Qed.

Lemma catalog_okb_spec (db : Database) : catalog_okb db = true <-> catalog_ok db.
Proof.
  unfold catalog_okb, catalog_ok. rewrite andb_true_iff, !forallb_forall. split.
  - intros [I U]. split.
    + intros r Hr. apply Z.ltb_lt, I, Hr.
    + intros r1 r2 s H1 H2 S1 S2. specialize (U r1 H1). rewrite forallb_forall in U.
      specialize (U r2 H2). unfold same_special_id in U. rewrite S1, S2, String.eqb_refl in U.
      apply Z.eqb_eq, U.
  - intros [I U]. split.
    + intros r Hr. apply Z.ltb_lt, I, Hr.
    + intros r1 H1. apply forallb_forall. intros r2 H2. unfold same_special_id.
      destruct (ClassRow.special_id r1) as [a|] eqn:S1, (ClassRow.special_id r2) as [b|] eqn:S2;
        try reflexivity.
      destruct (String.eqb_spec a b) as [->|]; [|reflexivity].
      apply orb_true_iff. right. apply Z.eqb_eq. exact (U r1 r2 b H1 H2 S1 S2).
Qed.

Lemma taken_true (db : Database) (except : Z) (s : string) (r : ClassRow.t) :
  In r (classes db) -> ClassRow.id r <> except -> ClassRow.special_id r = Some s ->
  Sql.special_id_taken db except (Some s) = true.
Proof.
  intros Hin Hid Hs. unfold Sql.special_id_taken. apply existsb_exists. exists r.
  split; [exact Hin|]. apply andb_true_iff. split.
  - apply negb_true_iff, Z.eqb_neq, Hid.
  - apply opt_str_eqb_eq, Hs.
Qed.

Lemma update_ok (db db' : Database) (i : Z) (v : Sql.class_values) (now : Z) :
  catalog_ok db -> Sql.update_class_by_id db i v now = Some db' -> catalog_ok db'.
Proof.
  intros [I U]. unfold Sql.update_class_by_id.
  destruct (Sql.special_id_taken db i (Sql.v_special_id v)) eqn:T; [discriminate|].
  intro H. injection H as <-. cbn [classes set_classes next_class_rowid]. split.
  - intros r Hr. apply in_map_iff in Hr as [r0 [<- H0]].
    destruct (ClassRow.id r0 =? i); cbn [Sql.apply_values ClassRow.id]; apply I, H0.
  - intros r1 r2 s H1 H2 S1 S2.
    apply in_map_iff in H1 as [r01 [<- H01]]. apply in_map_iff in H2 as [r02 [<- H02]].
    destruct (ClassRow.id r01 =? i) eqn:E1, (ClassRow.id r02 =? i) eqn:E2;
      cbn [Sql.apply_values ClassRow.id ClassRow.special_id] in *.
    + apply Z.eqb_eq in E1, E2. congruence.
    + apply Z.eqb_neq in E2. rewrite S1 in T.
      rewrite (taken_true db i s r02 H02 E2 S2) in T. discriminate.
    + apply Z.eqb_neq in E1. rewrite S2 in T.
      rewrite (taken_true db i s r01 H01 E1 S1) in T. discriminate.
    + exact (U r01 r02 s H01 H02 S1 S2).
Qed.

Lemma insert_ok (db db' : Database) (v : Sql.class_values) (now : Z) :
  catalog_ok db -> Sql.insert_class db v now = Some db' -> catalog_ok db'.
Proof.
  intros [I U]. unfold Sql.insert_class.
  destruct (Sql.special_id_taken db (next_class_rowid db) (Sql.v_special_id v)) eqn:T;
    [discriminate|].
  intro H. injection H as <-. unfold catalog_ok, set_classes. cbn [classes next_class_rowid]. split.
  - intros r Hr. apply in_app_or in Hr as [Hr|[<-|[]]].
    + specialize (I r Hr). lia.
    + simpl. lia.
  - intros r1 r2 s H1 H2 S1 S2.
    apply in_app_or in H1 as [H1|[<-|[]]]; apply in_app_or in H2 as [H2|[<-|[]]];
      cbn [ClassRow.id ClassRow.special_id] in *.
    + exact (U r1 r2 s H1 H2 S1 S2).
    + rewrite S2 in T. assert (ClassRow.id r1 <> next_class_rowid db) as Hne by (specialize (I r1 H1); lia).
      rewrite (taken_true db _ s r1 H1 Hne S1) in T. discriminate.
    + rewrite S1 in T. assert (ClassRow.id r2 <> next_class_rowid db) as Hne by (specialize (I r2 H2); lia).
      rewrite (taken_true db _ s r2 H2 Hne S2) in T. discriminate.
    + reflexivity.
Qed.

Lemma delete_ok (db : Database) (i : Z) : catalog_ok db -> catalog_ok (Sql.delete_class db i).
Proof.
  intros [I U]. unfold Sql.delete_class. cbn [classes next_class_rowid]. split.
  - intros r Hr. apply filter_In in Hr as [Hr _]. apply I, Hr.
  - intros r1 r2 s H1 H2. apply filter_In in H1 as [H1 _]. apply filter_In in H2 as [H2 _].
    apply U; assumption.
Qed.

(** The bulk [UPDATE ... WHERE special_id = ?] writes the same
    [special_id] back: it changes neither ids nor special ids. *)
Lemma update_by_special_id_keys (db : Database) (sid : string) (v : Sql.class_values) (now : Z) :
  Sql.v_special_id v = Some sid ->
  map (fun r => (ClassRow.id r, ClassRow.special_id r)) (classes (Bulk.update_by_special_id db sid v now))
  = map (fun r => (ClassRow.id r, ClassRow.special_id r)) (classes db).
Proof.
  intro Hv. unfold Bulk.update_by_special_id. cbn [classes set_classes]. rewrite map_map.
  apply map_ext. intro r. destruct (opt_str_eqb (ClassRow.special_id r) (Some sid)) eqn:E;
    [|reflexivity].
  apply opt_str_eqb_eq in E. simpl. rewrite Hv, E. reflexivity.
Qed.

Lemma keys_ok (db db' : Database) :
  map (fun r => (ClassRow.id r, ClassRow.special_id r)) (classes db')
  = map (fun r => (ClassRow.id r, ClassRow.special_id r)) (classes db) ->
  next_class_rowid db' = next_class_rowid db ->
  catalog_ok db -> catalog_ok db'.
Proof.
  intros K N [I U].
  assert (forall r, In r (classes db') -> exists r0, In r0 (classes db)
            /\ ClassRow.id r = ClassRow.id r0 /\ ClassRow.special_id r = ClassRow.special_id r0) as M.
  { intros r Hr. assert (In (ClassRow.id r, ClassRow.special_id r)
        (map (fun r => (ClassRow.id r, ClassRow.special_id r)) (classes db))) as Hk.
    { rewrite <- K. apply in_map_iff. exists r. split; [reflexivity|exact Hr]. }
    apply in_map_iff in Hk as [r0 [E H0]]. injection E as E1 E2.
    exists r0. split; [exact H0|]. split; symmetry; assumption. }
  split.
  - intros r Hr. destruct (M r Hr) as (r0 & H0 & -> & _). rewrite N. apply I, H0.
  - intros r1 r2 s H1 H2 S1 S2.
    destruct (M r1 H1) as (r01 & H01 & -> & E1). destruct (M r2 H2) as (r02 & H02 & -> & E2).
    apply (U r01 r02 s H01 H02); congruence.
Qed.

Lemma apply_row_ok (u : bool) (now : Z) (st : Bulk.progress) (job : Z * ClassPayload) :
  catalog_ok (Bulk.pdb st) -> catalog_ok (Bulk.pdb (Bulk.apply_row u now st job)).
Proof.
  intro H. destruct job as [index parsed]. unfold Bulk.apply_row.
  destruct (Sql.class_by_special_id _ _).
  - cbn [Bulk.pdb]. apply (keys_ok (Bulk.pdb st)); [|reflexivity|exact H].
    apply update_by_special_id_keys. reflexivity.
  - destruct u; [exact H|].
    destruct (Sql.insert_class _ _ _) eqn:I; [|exact H].
    exact (insert_ok _ _ _ _ H I).
Qed.

Lemma fold_apply_row_ok (u : bool) (now : Z) (jobs : list (Z * ClassPayload)) :
  forall st, catalog_ok (Bulk.pdb st) ->
  catalog_ok (Bulk.pdb (fold_left (Bulk.apply_row u now) jobs st)).
Proof.
  induction jobs as [|j jobs IH]; intros st H; [exact H|]. simpl. apply IH, apply_row_ok, H.
Qed.

Lemma post_special_id_some (p : ClassPayload) (gen : string) :
  exists s, CatalogMore.post_special_id p gen = Some s.
Proof.
  unfold CatalogMore.post_special_id. destruct (truthy_str (p_specialId p)) eqn:T.
  - destruct (p_specialId p) as [s|]; [exists s; reflexivity|discriminate].
  - exists gen. reflexivity.
Qed.

Lemma taken_false (db : Database) (except : Z) (x : option string) :
  existsb (fun r => opt_str_eqb (ClassRow.special_id r) x) (classes db) = false ->
  Sql.special_id_taken db except x = false.
Proof.
  intro E. unfold Sql.special_id_taken. destruct x as [s|]; [|reflexivity].
  apply not_true_iff_false. intro X. apply existsb_exists in X as [r [Hin Hr]].
  apply andb_true_iff in Hr as [_ Hr].
  assert (existsb (fun r => opt_str_eqb (ClassRow.special_id r) (Some s)) (classes db) = true).
  { apply existsb_exists. exists r. split; assumption. }
  congruence.
Qed.

Lemma find_id_snoc (cs : list ClassRow.t) (row : ClassRow.t) (i : Z) :
  (forall r, In r cs -> ClassRow.id r < i) -> ClassRow.id row = i ->
  find (fun r => ClassRow.id r =? i) (cs ++ [row])%list = Some row.
Proof.
  intros I Hrow. induction cs as [|r cs IH]; simpl.
  - rewrite Hrow, Z.eqb_refl. reflexivity.
  - assert (ClassRow.id r <> i) as Hne by (specialize (I r (or_introl eq_refl)); lia).
    apply Z.eqb_neq in Hne. rewrite Hne. apply IH. intros r' Hr'. apply I. right. exact Hr'.
Qed.

Lemma is_digit_lower (c : ascii) : CatalogMore.is_digit (CatalogMore.lower_char c) = CatalogMore.is_digit c.
Proof.
  destruct c as [[] [] [] [] [] [] [] []]; reflexivity.
Qed.

Lemma is_numeric_lower (s : string) :
  CatalogMore.is_numeric_id (CatalogMore.lower s) = CatalogMore.is_numeric_id s.
Proof.
  unfold CatalogMore.is_numeric_id, CatalogMore.lower.
  rewrite list_ascii_of_string_of_list_ascii.
  destruct (list_ascii_of_string s) as [|c l]; [reflexivity|].
  cbn [map forallb]. rewrite is_digit_lower. f_equal.
  induction l as [|x l IH]; [reflexivity|]. cbn [map forallb]. rewrite is_digit_lower, IH. reflexivity.
Qed.

End CatalogFacts.

(** X9: Starting from a catalog whose rowids are below the AUTOINCREMENT
    counter and whose special ids each belong to one record, every catalog
    route keeps it so: no route leaves two records sharing a special id. *)
Theorem catalog_routes_keep_special_ids_unique (db : Database) :
  Invariants.catalog_okb db = true ->
  (forall i b file now, Invariants.catalog_okb (fst (Catalog.classes_put db i b file now)) = true)
  /\ (forall b file gen now,
        Invariants.catalog_okb (fst (CatalogMore.classes_post db b file gen now)) = true)
  /\ (forall i, Invariants.catalog_okb (fst (Catalog.classes_delete db i)) = true)
  /\ Invariants.catalog_okb (fst (CatalogMore.classes_purge db)) = true
  /\ (forall u rows now, Invariants.catalog_okb (fst (Bulk.bulk_upload db u rows now)) = true).
Proof.
  rewrite !CatalogFacts.catalog_okb_spec. intro H.
  split; [|split; [|split; [|split]]]; rewrite ?CatalogFacts.catalog_okb_spec.
  - intros i b file now. rewrite CatalogFacts.catalog_okb_spec. unfold Catalog.classes_put.
    destruct (Sql.class_by_id db i) as [current|]; [|exact H].
    destruct (Sql.update_class_by_id _ _ _ _) as [db'|] eqn:U; [|exact H].
    pose proof (CatalogFacts.update_ok _ _ _ _ _ H U).
    destruct (Sql.class_by_id db' i); assumption.
  - intros b file gen now. rewrite CatalogFacts.catalog_okb_spec. unfold CatalogMore.classes_post.
    destruct (negb _); [exact H|].
    destruct (Sql.insert_class _ _ _) as [db'|] eqn:I; [|exact H].
    pose proof (CatalogFacts.insert_ok _ _ _ _ H I).
    destruct (Sql.class_by_id db' _); assumption.
  - intro i. rewrite CatalogFacts.catalog_okb_spec. unfold Catalog.classes_delete.
    destruct (Sql.class_by_id db i); [apply CatalogFacts.delete_ok, H|exact H].
  - split; simpl; [intros _ []|intros r1 r2 s []].
  - intros u rows now. rewrite CatalogFacts.catalog_okb_spec. unfold Bulk.bulk_upload.
    destruct rows as [|row rows]; [exact H|].
    destruct (Bulk.phase1 _) as [sk1 queue]. destruct queue as [|j queue]; [exact H|].
    cbn [fst]. apply CatalogFacts.fold_apply_row_ok, H.
Qed.

Lemma catalog_routes_keep_special_ids_unique_witness :
  Invariants.catalog_okb db0 = true
  /\ Invariants.catalog_okb
       (fst (Bulk.bulk_upload db0 false [BulkFixtures.crate_row; BulkFixtures.crate_row] 3)) = true.
Proof.
  assert (H : Invariants.catalog_okb db0 = true) by reflexivity.
  split; [exact H|].
  destruct (catalog_routes_keep_special_ids_unique db0 H) as (_ & _ & _ & _ & B).
  apply B.
Defined.

(** X10: [POST /api/classes] with a class name and a special id (given, or
    generated when the payload has none) that no record has: it appends
    one record with the next rowid, the request's fields and both
    timestamps set to the clock, and answers with that record. *)
Theorem classes_post_creates (db : Database) (b : body) (file : option string) (gen : string)
    (now : Z) :
  Invariants.catalog_okb db = true ->
  truthy_str (p_className (parseClassPayload b None)) = true ->
  existsb (fun r => opt_str_eqb (ClassRow.special_id r)
                      (CatalogMore.post_special_id (parseClassPayload b None) gen)) (classes db)
  = false ->
  exists row,
    CatalogMore.classes_post db b file gen now
    = (set_classes db (classes db ++ [row])%list (next_class_rowid db + 1), Ok row)
    /\ ClassRow.id row = next_class_rowid db
    /\ ClassRow.special_id row = CatalogMore.post_special_id (parseClassPayload b None) gen
    /\ Some (ClassRow.class_name row) = p_className (parseClassPayload b None)
    /\ ClassRow.class_price row = if_defined (p_classPrice (parseClassPayload b None)) None
    /\ ClassRow.class_video row = match file with
                                  | Some f => Some ("/uploads/" ++ f)%string
                                  | None => field "classVideoUrl" b
                                  end
    /\ ClassRow.created_at row = now /\ ClassRow.updated_at row = now.
Proof.
  intros Hok Hname Hfree. apply CatalogFacts.catalog_okb_spec in Hok as [I _].
  unfold CatalogMore.classes_post. rewrite Hname. cbn [negb].
  unfold Sql.insert_class. cbn [Sql.v_special_id].
  rewrite (CatalogFacts.taken_false _ _ _ Hfree).
  unfold Sql.class_by_id. cbn [classes set_classes].
  rewrite CatalogFacts.find_id_snoc by (exact I || reflexivity).
  eexists. split; [reflexivity|].
  cbn [ClassRow.id ClassRow.special_id ClassRow.class_name ClassRow.class_price ClassRow.class_video
       ClassRow.created_at ClassRow.updated_at Sql.v_special_id Sql.v_class_name Sql.v_class_price
       Sql.v_class_video].
  repeat split; try reflexivity.
  destruct (p_className (parseClassPayload b None)) as [n|]; [reflexivity|discriminate].
Qed.

Lemma classes_post_creates_witness :
  (Invariants.catalog_okb db0 = true
   /\ truthy_str (p_className (parseClassPayload [("className", " Crate ")] None)) = true
   /\ existsb (fun r => opt_str_eqb (ClassRow.special_id r)
                 (CatalogMore.post_special_id (parseClassPayload [("className", " Crate ")] None) "CR02"))
               (classes db0) = false)
  /\ exists row,
       CatalogMore.classes_post db0 [("className", " Crate ")] None "CR02" 4
       = (set_classes db0 (classes db0 ++ [row])%list (next_class_rowid db0 + 1), Ok row)
       /\ ClassRow.id row = 2
       /\ ClassRow.special_id row = Some "CR02"
       /\ Some (ClassRow.class_name row) = Some "Crate"
       /\ ClassRow.class_price row = None
       /\ ClassRow.class_video row = None
       /\ ClassRow.created_at row = 4 /\ ClassRow.updated_at row = 4.
Proof.
  assert (H1 : Invariants.catalog_okb db0 = true) by reflexivity.
  assert (H2 : truthy_str (p_className (parseClassPayload [("className", " Crate ")] None)) = true)
    by reflexivity.
  assert (H3 : existsb (fun r => opt_str_eqb (ClassRow.special_id r)
                 (CatalogMore.post_special_id (parseClassPayload [("className", " Crate ")] None) "CR02"))
               (classes db0) = false) by reflexivity.
  split; [split; [|split]; assumption|].
  exact (classes_post_creates db0 [("className", " Crate ")] None "CR02" 4 H1 H2 H3).
Defined.

(** X11: [POST /api/classes] without a class name answers 400; with a special
    id (given or generated) that a record already has it answers 500. In
    both cases the catalog is left as it was. *)
Theorem classes_post_rejects (db : Database) (b : body) (file : option string) (gen : string)
    (now : Z) :
  (truthy_str (p_className (parseClassPayload b None)) = false ->
   CatalogMore.classes_post db b file gen now = (db, Fail 400 "Class name is required."))
  /\ (Invariants.catalog_okb db = true ->
      truthy_str (p_className (parseClassPayload b None)) = true ->
      existsb (fun r => opt_str_eqb (ClassRow.special_id r)
                          (CatalogMore.post_special_id (parseClassPayload b None) gen)) (classes db)
      = true ->
      CatalogMore.classes_post db b file gen now = (db, Fail 500 "Failed to create class")).
Proof.
  split.
  - intro Hname. unfold CatalogMore.classes_post. rewrite Hname. reflexivity.
  - intros Hok Hname Htaken. apply CatalogFacts.catalog_okb_spec in Hok as [I _].
    unfold CatalogMore.classes_post. rewrite Hname. cbn [negb].
    unfold Sql.insert_class. cbn [Sql.v_special_id].
    destruct (CatalogFacts.post_special_id_some (parseClassPayload b None) gen) as [s Hs].
    rewrite Hs in *. apply existsb_exists in Htaken as [r [Hin Hr]].
    apply CatalogFacts.opt_str_eqb_eq in Hr.
    assert (ClassRow.id r <> next_class_rowid db) as Hne by (specialize (I r Hin); lia).
    rewrite (CatalogFacts.taken_true db _ s r Hin Hne Hr). reflexivity.
Qed.


(** X13: [GET /api/classes/:identifier] with an identifier that is not all
    digits finds records by special id ignoring (ASCII) case: two
    identifiers that differ only in case find the same record, and the
    record found has a special id equal to the identifier up to case. *)
Theorem classes_get_case_insensitive (db : Database) (i1 i2 : string) :
  CatalogMore.is_ascii i1 = true -> CatalogMore.is_ascii i2 = true ->
  CatalogMore.is_numeric_id i1 = false -> CatalogMore.lower i1 = CatalogMore.lower i2 ->
  CatalogMore.classes_get db i1 = CatalogMore.classes_get db i2
  /\ (forall row, CatalogMore.classes_get db i1 = Ok row ->
        exists sid, ClassRow.special_id row = Some sid
                    /\ CatalogMore.lower sid = CatalogMore.lower i1).
Proof.
  intros _ _ N1 E.
  assert (CatalogMore.is_numeric_id i2 = false) as N2.
  { rewrite <- CatalogFacts.is_numeric_lower, <- E, CatalogFacts.is_numeric_lower. exact N1. }
  unfold CatalogMore.classes_get. rewrite N1, N2, E. split; [reflexivity|].
  intro row. destruct (find _ _) as [r|] eqn:F; [|discriminate].
  intro H. injection H as <-. apply find_some in F as [_ F].
  destruct (ClassRow.special_id r) as [sid|]; [|discriminate].
  exists sid. split; [reflexivity|]. apply String.eqb_eq, F.
Qed.

Lemma classes_get_case_insensitive_witness :
  (CatalogMore.is_ascii "cr01" = true /\ CatalogMore.is_ascii "Cr01" = true
   /\ CatalogMore.is_numeric_id "cr01" = false
   /\ CatalogMore.lower "cr01" = CatalogMore.lower "Cr01")
  /\ CatalogMore.classes_get db0 "cr01" = CatalogMore.classes_get db0 "Cr01"
  /\ CatalogMore.classes_get db0 "Cr01" = Ok box.
Proof.
  assert (H1 : CatalogMore.is_ascii "cr01" = true) by reflexivity.
  assert (H2 : CatalogMore.is_ascii "Cr01" = true) by reflexivity.
  assert (H3 : CatalogMore.is_numeric_id "cr01" = false) by reflexivity.
  assert (H4 : CatalogMore.lower "cr01" = CatalogMore.lower "Cr01") by reflexivity.
  split; [split; [|split; [|split]]; assumption|].
  split; [exact (proj1 (classes_get_case_insensitive db0 _ _ H1 H2 H3 H4))|reflexivity].
Defined.

(** X14: An identifier made of digits is always taken as a rowid: leading
    zeros do not matter, and a record whose special id is all digits is
    not found by that special id when no record has that rowid. *)
Theorem classes_get_numeric_identifier (db : Database) (r : ClassRow.t) (sid : string) (n : Z) :
  In r (classes db) -> ClassRow.special_id r = Some sid -> CatalogMore.is_numeric_id sid = true ->
  digits_val (list_ascii_of_string sid) 0 = Some n -> Sql.class_by_id db n = None ->
  CatalogMore.classes_get db sid = Fail 404 "Class not found"
  /\ (forall identifier, CatalogMore.is_numeric_id identifier = true ->
        CatalogMore.classes_get db (String "0" identifier) = CatalogMore.classes_get db identifier).
Proof.
  intros _ _ N D C. split.
  - unfold CatalogMore.classes_get. rewrite N, D, C. reflexivity.
  - intros identifier Ni. unfold CatalogMore.classes_get.
    assert (CatalogMore.is_numeric_id (String "0" identifier) = true) as N0.
    { unfold CatalogMore.is_numeric_id in *. cbn [list_ascii_of_string forallb].
      destruct (list_ascii_of_string identifier); [discriminate|exact Ni]. }
    rewrite N0, Ni. reflexivity.
Qed.

Lemma classes_get_numeric_identifier_witness :
  (In (ClassRow.mk 1 (Some "77") "Boxes" "A" "Box" None None None (Some 10) None None 0 0)
      (classes (mkDatabase [ClassRow.mk 1 (Some "77") "Boxes" "A" "Box" None None None
                              (Some 10) None None 0 0] [] [] 2 1 false false))
   /\ CatalogMore.is_numeric_id "77" = true
   /\ digits_val (list_ascii_of_string "77") 0 = Some 77)
  /\ CatalogMore.classes_get
       (mkDatabase [ClassRow.mk 1 (Some "77") "Boxes" "A" "Box" None None None (Some 10) None None 0 0]
          [] [] 2 1 false false) "77"
     = Fail 404 "Class not found".
Proof.
  set (r := ClassRow.mk 1 (Some "77") "Boxes" "A" "Box" None None None (Some 10) None None 0 0).
  set (db := mkDatabase [r] [] [] 2 1 false false).
  assert (H1 : In r (classes db)) by (left; reflexivity).
  assert (H2 : ClassRow.special_id r = Some "77") by reflexivity.
  assert (H3 : CatalogMore.is_numeric_id "77" = true) by reflexivity.
  assert (H4 : digits_val (list_ascii_of_string "77") 0 = Some 77) by reflexivity.
  assert (H5 : Sql.class_by_id db 77 = None) by reflexivity.
  split; [split; [|split]; assumption|].
  exact (proj1 (classes_get_numeric_identifier db r "77" 77 H1 H2 H3 H4 H5)).
Defined.

(** ** The bulk sync engine: accounting and keys *)

Module BulkMore.
Import Bulk BulkFacts.

Definition keys (cs : list ClassRow.t) : list (Z * option string) :=
  map (fun r => (ClassRow.id r, ClassRow.special_id r)) cs.

Lemma phase1_bounds (rows : list body) :
  forall index,
  (forall e, In e (fst (phase1_from index rows)) ->
             index + 2 <= fst e <= index + Z.of_nat (List.length rows) + 1)
  /\ (forall j, In j (snd (phase1_from index rows)) ->
             index <= fst j < index + Z.of_nat (List.length rows)).
Proof.
  induction rows as [|r rows IH]; intro index; [split; intros ? []|].
  cbn [phase1_from List.length]. destruct (IH (index + 1)) as [S Q].
  destruct (phase1_from (index + 1) rows) as [sk q]. cbn [fst snd] in S, Q.
  destruct (truthy_str _); cbn [fst snd]; split.
  - intros e He. specialize (S e He). lia.
  - intros j [<-|Hj]; [simpl; lia|]. specialize (Q j Hj). lia.
  - intros e [<-|He]; [simpl; lia|]. specialize (S e He). lia.
  - intros j Hj. specialize (Q j Hj). lia.
Qed.

Lemma apply_row_skips (u : bool) (now : Z) (st : progress) (job : Z * ClassPayload) :
  forall e, In e (skipped2 (apply_row u now st job)) -> In e (skipped2 st) \/ fst e = fst job + 2.
Proof.
  destruct job as [index parsed]. unfold apply_row.
  destruct (Sql.class_by_special_id _ _); [intros e He; left; exact He|].
  destruct u.
  - intros e He. cbn [skipped2] in He. apply in_app_or in He as [He|[<-|[]]]; [left; exact He|].
    right. reflexivity.
  - destruct (Sql.insert_class _ _ _); [intros e He; left; exact He|].
    intros e He. cbn [skipped2] in He. apply in_app_or in He as [He|[<-|[]]]; [left; exact He|].
    right. reflexivity.
Qed.

Lemma fold_skips (u : bool) (now : Z) (P : Z -> Prop) (jobs : list (Z * ClassPayload)) :
  forall st, (forall e, In e (skipped2 st) -> P (fst e)) ->
  (forall j, In j jobs -> P (fst j + 2)) ->
  forall e, In e (skipped2 (fold_left (apply_row u now) jobs st)) -> P (fst e).
Proof.
  induction jobs as [|j jobs IH]; intros st Hst Hjobs; [exact Hst|]. simpl. apply IH.
  - intros e He. destruct (apply_row_skips u now st j e He) as [H|H]; [apply Hst, H|].
    rewrite H. apply Hjobs. left. reflexivity.
  - intros j' Hj'. apply Hjobs. right. exact Hj'.
Qed.

Lemma apply_row_keys (u : bool) (now : Z) (st : progress) (job : Z * ClassPayload) :
  exists extra, keys (classes (pdb (apply_row u now st job))) = (keys (classes (pdb st)) ++ extra)%list
                /\ (u = true -> extra = [] /\ next_class_rowid (pdb (apply_row u now st job))
                                              = next_class_rowid (pdb st)).
Proof.
  destruct job as [index parsed]. unfold apply_row.
  destruct (Sql.class_by_special_id _ _).
  - exists []. rewrite app_nil_r. split; [|split; reflexivity].
    apply CatalogFacts.update_by_special_id_keys. reflexivity.
  - destruct u.
    + exists []. rewrite app_nil_r. split; [reflexivity|split; reflexivity].
    + destruct (Sql.insert_class _ _ _) as [db'|] eqn:I.
      * unfold Sql.insert_class in I. destruct (Sql.special_id_taken _ _ _); [discriminate|].
        injection I as <-. eexists. split; [|discriminate].
        unfold keys. cbn [pdb classes set_classes]. rewrite map_app. reflexivity.
      * exists []. rewrite app_nil_r. split; [reflexivity|discriminate].
Qed.

Lemma fold_keys (u : bool) (now : Z) (jobs : list (Z * ClassPayload)) :
  forall st, exists extra,
    keys (classes (pdb (fold_left (apply_row u now) jobs st))) = (keys (classes (pdb st)) ++ extra)%list
    /\ (u = true -> extra = [] /\ next_class_rowid (pdb (fold_left (apply_row u now) jobs st))
                                  = next_class_rowid (pdb st)).
Proof.
  induction jobs as [|j jobs IH]; intro st.
  - exists []. rewrite app_nil_r. split; [reflexivity|split; reflexivity].
  - simpl. destruct (apply_row_keys u now st j) as [e1 [K1 U1]].
    destruct (IH (apply_row u now st j)) as [e2 [K2 U2]].
    exists (e1 ++ e2)%list. rewrite K2, K1, app_assoc. split; [reflexivity|].
    intro Hu. destruct (U1 Hu) as [-> N1]. destruct (U2 Hu) as [-> N2]. split; [reflexivity|].
    rewrite N2. exact N1.
Qed.

Lemma bulk_keys (db : Database) (u : bool) (rows : list body) (now : Z) :
  exists extra,
    keys (classes (fst (bulk_upload db u rows now))) = (keys (classes db) ++ extra)%list
    /\ (u = true -> extra = [] /\ next_class_rowid (fst (bulk_upload db u rows now))
                                  = next_class_rowid db).
Proof.
  unfold bulk_upload. destruct rows as [|row rows].
  - exists []. rewrite app_nil_r. split; [reflexivity|split; reflexivity].
  - destruct (phase1 _) as [sk1 queue]. destruct queue as [|j queue].
    + exists []. rewrite app_nil_r. split; [reflexivity|split; reflexivity].
    + cbn [fst]. apply (fold_keys u now (j :: queue) (mkProgress db [] [])).
Qed.

Lemma phase1_queue_empty (rows : list body) :
  forall index, snd (phase1_from index rows) = [] <-> forallb (fun r => negb (well_formed r)) rows = true.
Proof.
  induction rows as [|r rows IH]; intro index; [split; reflexivity|].
  cbn [phase1_from forallb]. specialize (IH (index + 1)).
  destruct (phase1_from (index + 1) rows) as [sk q]. cbn [snd] in IH.
  unfold well_formed at 1. destruct (truthy_str _); cbn [snd negb andb].
  - split; discriminate.
  - exact IH.
Qed.

End BulkMore.

(** X15: When [POST /api/classes/bulk-upload] sends its report, every row of
    the sheet is counted once, as processed or as skipped, and every
    skipped entry names a sheet row between 2 (the first data row, after
    the header) and the number of rows plus 1. *)
Theorem bulk_report_accounts_for_every_row (db db' : Database) (u : bool) (rows : list body)
    (now : Z) (rep : Bulk.report) :
  Bulk.bulk_upload db u rows now = (db', Bulk.BulkReport rep) ->
  Bulk.processedCount rep + Bulk.skippedCount rep = Z.of_nat (List.length rows)
  /\ Bulk.skippedCount rep = Z.of_nat (List.length (Bulk.skipped rep))
  /\ (forall e, In e (Bulk.skipped rep) -> 2 <= fst e <= Z.of_nat (List.length rows) + 1).
Proof.
  pose proof (BulkFacts.phase1_length rows 0) as L.
  destruct (BulkMore.phase1_bounds rows 0) as [S Q].
  unfold Bulk.bulk_upload, Bulk.phase1. destruct rows as [|r0 rows']; [discriminate|].
  destruct (Bulk.phase1_from 0 (r0 :: rows')) as [sk1 queue] eqn:E. cbn [fst snd] in L, S, Q.
  destruct queue as [|j queue]; [discriminate|].
  intro H. injection H as <- <-. cbn [Bulk.processedCount Bulk.skippedCount Bulk.skipped].
  split; [|split; [reflexivity|]].
  - rewrite length_app, <- Nat2Z.inj_add.
    pose proof (BulkFacts.fold_apply_row_counts u now queue
                  (Bulk.apply_row u now (Bulk.mkProgress db [] []) j)) as F.
    pose proof (BulkFacts.apply_row_counts u now (Bulk.mkProgress db [] []) j) as A.
    simpl in F, A, L |- *. lia.
  - intros e He. apply in_app_or in He as [He|He]; [specialize (S e He); lia|].
    apply (BulkMore.fold_skips u now (fun z => 2 <= z <= Z.of_nat (List.length (r0 :: rows')) + 1)
             (j :: queue) (Bulk.mkProgress db [] [])); [intros ? []| |exact He].
    intros j' Hj'. specialize (Q j' Hj'). lia.
Qed.

Lemma bulk_report_accounts_for_every_row_witness :
  Bulk.bulk_upload db0 false [BulkFixtures.crate_row; BulkFixtures.blank_row] 3
  = (fst (Bulk.bulk_upload db0 false [BulkFixtures.crate_row; BulkFixtures.blank_row] 3),
     Bulk.BulkReport (Bulk.mkReport 1 1 [(3, "Special ID is required.")]))
  /\ 1 + 1 = Z.of_nat (List.length [BulkFixtures.crate_row; BulkFixtures.blank_row]).
Proof.
  assert (H : Bulk.bulk_upload db0 false [BulkFixtures.crate_row; BulkFixtures.blank_row] 3
    = (fst (Bulk.bulk_upload db0 false [BulkFixtures.crate_row; BulkFixtures.blank_row] 3),
       Bulk.BulkReport (Bulk.mkReport 1 1 [(3, "Special ID is required.")]))) by reflexivity.
  split; [exact H|]. exact (proj1 (bulk_report_accounts_for_every_row _ _ _ _ _ _ H)).
Defined.

(** X16: The bulk upload in update-only mode never creates a record: the ids
    and special ids of the catalog, in order, and the AUTOINCREMENT
    counter are unchanged; only the other columns of matched records are
    rewritten. *)
Theorem bulk_update_only_never_creates (db : Database) (rows : list body) (now : Z) :
  BulkMore.keys (classes (fst (Bulk.bulk_upload db true rows now))) = BulkMore.keys (classes db)
  /\ next_class_rowid (fst (Bulk.bulk_upload db true rows now)) = next_class_rowid db.
Proof.
  destruct (BulkMore.bulk_keys db true rows now) as [extra [K U]].
  destruct (U eq_refl) as [-> N]. rewrite app_nil_r in K. split; assumption.
Qed.

(** X17: The bulk upload never deletes or re-keys a record: the ids and special
    ids of the catalog before it are, in order, a prefix of those after
    it; it can only append records. *)
Theorem bulk_never_removes_records (db : Database) (u : bool) (rows : list body) (now : Z) :
  exists extra,
    BulkMore.keys (classes (fst (Bulk.bulk_upload db u rows now)))
    = (BulkMore.keys (classes db) ++ extra)%list.
Proof.
  destruct (BulkMore.bulk_keys db u rows now) as [extra [K _]]. exists extra. exact K.
Qed.

(** X18: The bulk upload leaves the request without a response exactly when the
    sheet has rows and none of them has a special id. *)
Theorem bulk_no_response_iff (db : Database) (u : bool) (rows : list body) (now : Z) :
  snd (Bulk.bulk_upload db u rows now) = Bulk.NoResponse
  <-> rows <> [] /\ forallb (fun r => negb (BulkFacts.well_formed r)) rows = true.
Proof.
  pose proof (BulkMore.phase1_queue_empty rows 0) as Q.
  unfold Bulk.bulk_upload, Bulk.phase1 in *. destruct rows as [|r0 rows'].
  - cbn [snd]. split; [discriminate|intros [H _]; exfalso; apply H; reflexivity].
  - destruct (Bulk.phase1_from 0 (r0 :: rows')) as [sk1 queue]. cbn [snd] in Q |- *.
    rewrite <- Q. destruct queue as [|j queue].
    + split; [intros _; split; [discriminate|reflexivity]|reflexivity].
    + split; [discriminate|intros [_ H]; discriminate].
Qed.

(** X19: [PUT /api/classes/:id] that gives the record a special id another
    record already has answers 500 and changes nothing. *)
Theorem classes_put_special_id_conflict (db : Database) (i : Z) (b : body) (file : option string)
    (now : Z) (current r : ClassRow.t) :
  Sql.class_by_id db i = Some current -> In r (classes db) -> ClassRow.id r <> i ->
  truthy_str (p_specialId (parseClassPayload b None)) = true ->
  ClassRow.special_id r = p_specialId (parseClassPayload b None) ->
  Catalog.classes_put db i b file now = (db, Fail 500 "Failed to update class").
Proof.
  intros Hcur Hin Hne Ht Hs. unfold Catalog.classes_put. rewrite Hcur.
  unfold Sql.update_class_by_id. cbn [Sql.v_special_id Catalog.put_values]. rewrite Ht.
  destruct (p_specialId (parseClassPayload b None)) as [s|] eqn:P; [|discriminate].
  rewrite (CatalogFacts.taken_true db i s r Hin Hne Hs). reflexivity.
Qed.

Lemma classes_put_special_id_conflict_witness :
  let crate_rec := ClassRow.mk 2 (Some "CR02") "Boxes" "B" "Crate" None None None None None None 0 0 in
  let db := mkDatabase [box; crate_rec] [] [] 3 1 false false in
  (Sql.class_by_id db 1 = Some box /\ In crate_rec (classes db) /\ ClassRow.id crate_rec <> 1
   /\ truthy_str (p_specialId (parseClassPayload [("specialId", "CR02")] None)) = true
   /\ ClassRow.special_id crate_rec = p_specialId (parseClassPayload [("specialId", "CR02")] None))
  /\ Catalog.classes_put db 1 [("specialId", "CR02")] None 5 = (db, Fail 500 "Failed to update class").
Proof.
  intros crate_rec db.
  assert (H1 : Sql.class_by_id db 1 = Some box) by reflexivity.
  assert (H2 : In crate_rec (classes db)) by (right; left; reflexivity).
  assert (H3 : ClassRow.id crate_rec <> 1) by (simpl; lia).
  assert (H4 : truthy_str (p_specialId (parseClassPayload [("specialId", "CR02")] None)) = true)
    by reflexivity.
  assert (H5 : ClassRow.special_id crate_rec = p_specialId (parseClassPayload [("specialId", "CR02")] None))
    by reflexivity.
  split; [split; [|split; [|split; [|split]]]; assumption|].
  exact (classes_put_special_id_conflict db 1 _ None 5 box crate_rec H1 H2 H3 H4 H5).
Defined.

Module MigrationFacts.
Import Migrations.

Lemma mem_In (c : string) (cols : list string) : mem c cols = true <-> In c cols.
Proof.
  unfold mem. rewrite existsb_exists. split.
  - intros [x [Hx E]]. apply String.eqb_eq in E. subst. exact Hx.
  - intro H. exists c. split; [exact H|apply String.eqb_refl].
Qed.

Lemma migrate_classes_has (cols : list string) (c : string) :
  In c ["class_weight"; "class_name_ar"; "class_name_en"; "class_quantity"] ->
  In c (migrate_classes cols).
Proof.
  intro Hc. unfold migrate_classes. apply in_or_app.
  destruct (mem c cols) eqn:M; [left; apply mem_In, M|].
  right. apply filter_In. split; [exact Hc|]. rewrite M. reflexivity.
Qed.

Lemma map_rename_in (cols : list string) :
  In "items_json" cols ->
  In "items" (map (fun c => if String.eqb c "items_json" then "items" else c) cols).
Proof.
  intro H. apply in_map_iff. exists "items_json". split; [reflexivity|exact H].
Qed.

Lemma map_rename_gone (cols : list string) :
  ~ In "items_json" (map (fun c => if String.eqb c "items_json" then "items" else c) cols).
Proof.
  intro H. apply in_map_iff in H as [c [E _]].
  destruct (String.eqb c "items_json") eqn:B; [discriminate|]. subst.
  rewrite String.eqb_refl in B. discriminate.
Qed.

End MigrationFacts.

(** X20: The column migrations of [initializeDatabase] leave [classes] with the
    columns [class_weight], [class_name_ar], [class_name_en] and
    [class_quantity] and [orders] with an [items] column (renamed from
    [items_json] when only that one exists); run again on the migrated
    tables they change nothing. *)
Theorem migrations_complete_and_idempotent (classes_cols orders_cols : list string) :
  (forall c, In c ["class_weight"; "class_name_ar"; "class_name_en"; "class_quantity"] ->
             In c (Migrations.migrate_classes classes_cols))
  /\ Migrations.migrate_classes (Migrations.migrate_classes classes_cols)
     = Migrations.migrate_classes classes_cols
  /\ In "items" (Migrations.migrate_orders orders_cols)
  /\ Migrations.migrate_orders (Migrations.migrate_orders orders_cols)
     = Migrations.migrate_orders orders_cols
  /\ (Migrations.mem "items" orders_cols = false ->
      ~ In "items_json" (Migrations.migrate_orders orders_cols)).
Proof.
  split; [apply MigrationFacts.migrate_classes_has|].
  split.
  - unfold Migrations.migrate_classes at 1.
    replace (filter _ _) with (@nil string); [apply app_nil_r|].
    symmetry. cbn [filter].
    repeat match goal with
           | |- context [Migrations.mem ?c (Migrations.migrate_classes classes_cols)] =>
               rewrite (proj2 (MigrationFacts.mem_In c _)) by
                 (apply MigrationFacts.migrate_classes_has; simpl; tauto)
           end.
    reflexivity.
  - unfold Migrations.migrate_orders.
    destruct (Migrations.mem "items_json" orders_cols) eqn:J, (Migrations.mem "items" orders_cols) eqn:I;
      cbn [andb negb].
    + split; [apply MigrationFacts.mem_In, I|]. rewrite J, I. split; [reflexivity|].
      intro F; discriminate.
    + assert (In "items" (map (fun c => if String.eqb c "items_json" then "items" else c) orders_cols))
        as Hi by (apply MigrationFacts.map_rename_in, MigrationFacts.mem_In, J).
      assert (Migrations.mem "items_json"
                (map (fun c => if String.eqb c "items_json" then "items" else c) orders_cols) = false)
        as Hj by (apply not_true_iff_false; intro X; apply MigrationFacts.mem_In in X;
                  exact (MigrationFacts.map_rename_gone _ X)).
      split; [exact Hi|]. rewrite Hj, (proj2 (MigrationFacts.mem_In _ _) Hi). cbn [andb negb].
      split; [reflexivity|]. intros _. apply MigrationFacts.map_rename_gone.
    + split; [apply MigrationFacts.mem_In, I|]. rewrite J, I. split; [reflexivity|].
      intro F; discriminate.
    + assert (In "items" (orders_cols ++ ["items"])%list) as Hi
        by (apply in_or_app; right; left; reflexivity).
      split; [exact Hi|].
      assert (Migrations.mem "items_json" (orders_cols ++ ["items"])%list = false) as Hj.
      { unfold Migrations.mem in *. rewrite existsb_app, J. reflexivity. }
      rewrite Hj, (proj2 (MigrationFacts.mem_In _ _) Hi). cbn [andb negb].
      split; [reflexivity|]. intros _ X. apply in_app_or in X as [X|[X|[]]].
      * apply MigrationFacts.mem_In in X. congruence.
      * discriminate.
Qed.
